(** * Mijn Liander: token lifecycle, polling, sensors and config flow

    A shallow embedding of the Home Assistant integration
    [custom_components/mijn_liander]:

    - [coordinator.py]: [LianderDataUpdateCoordinator] (token renewal,
      expiry check, polling) and the [example_data] fixture;
    - [sensor.py]: [LianderSensor.native_value], the sensor descriptions,
      [LianderSensor.icon] and the platform's [async_setup_entry];
    - [binary_sensor.py]: [LianderBinarySensor.is_on] and
      [extra_state_attributes];
    - [config_flow.py]: [STEP_USER_DATA_SCHEMA] and
      [ConfigFlow.async_step_user];
    - [__init__.py]: [async_setup_entry] and [async_unload_entry].

    Conventions of the model.

    - Python values that travel through the code (parsed JSON, the stored
      token, form input) are the type [pyobj].  An [int] is a [Z], a
      [float] a binary64 number; a dict is an association list in insertion
      order, looked up by its first binding for a key.
    - Text is [string]; one character stands for one code point below 256.
    - An instant ([datetime], always UTC in the source) is the number of
      microseconds since the Unix epoch, a [timedelta] a number of
      microseconds.  Python's [datetime] covers the years 1 to 9999:
      [datetime_fromtimestamp] and the arithmetic of [datetime_add] and
      [datetime_sub] raise outside [DATETIME_MIN .. DATETIME_MAX] as
      Python does.
    - [async] functions run to completion on one task; an [await] is a
      call.  Everything the code asks of the outside (the clock, the HTTP
      session, PyJWT, the framework) is a field of an environment record
      and is universally quantified in the theorems.  The clock reads an
      instant at least one hour away from both ends of the calendar.
    - Exceptions are instances of Python's [Exception]: the interpreter's
      control signals outside that class (task cancellation, interpreter
      exit) are not failure causes of the code and are not represented. *)

From Stdlib Require Import ZArith List String Ascii Bool Lia.
From Stdlib Require Import DecimalString Floats.
Import ListNotations.

Local Open Scope string_scope.
Local Open Scope Z_scope.

#[local] Set Warnings "-register-all".
#[local] Set Warnings "-inexact-float".

(* ------------------------------------------------------------------ *)
(** * Python values *)

Inductive pyobj : Type :=
| VNone
| VBool (b : bool)
| VInt (n : Z)
| VFloat (f : float)
| VStr (s : string)
| VList (items : list pyobj)
| VDict (entries : list (string * pyobj)).

(** [bool(v)]: the truth value Python gives [v] in [if v:] and [not v]. *)
Definition truthy (v : pyobj) : bool :=
  match v with
  | VNone => false
  | VBool b => b
  | VInt n => negb (n =? 0)
  | VFloat f => negb (PrimFloat.eqb f 0)
  | VStr s => negb (String.eqb s "")
  | VList items => match items with [] => false | _ :: _ => true end
  | VDict entries => match entries with [] => false | _ :: _ => true end
  end.

Definition is_none (v : pyobj) : bool :=
  match v with VNone => true | _ => false end.

(** [isinstance(v, dict)] *)
Definition isinstance_dict (v : pyobj) : bool :=
  match v with VDict _ => true | _ => false end.

(** Lookup in a dict's entries. *)
Fixpoint assoc (k : string) (entries : list (string * pyobj)) : option pyobj :=
  match entries with
  | [] => None
  | (k', v) :: rest => if String.eqb k k' then Some v else assoc k rest
  end.

(** [d[k] = v] on a dict's entries: replaces the binding in place, or
    appends a new one. *)
Fixpoint dict_set (k : string) (v : pyobj) (entries : list (string * pyobj))
  : list (string * pyobj) :=
  match entries with
  | [] => [(k, v)]
  | (k', v') :: rest =>
      if String.eqb k k' then (k', v) :: rest else (k', v') :: dict_set k v rest
  end.

(* ------------------------------------------------------------------ *)
(** * Exceptions and outcomes *)

(** The exception classes the handlers of the code tell apart, with the
    classes its own operations raise.  [ContentTypeError] is a subclass of
    [ClientResponseError], itself a subclass of [ClientError] (aiohttp);
    [ClientError] stands for that class and its remaining subclasses;
    a [ClientResponseError] carries the response's status ([e.status]);
    [Invalid] is voluptuous' [vol.Invalid] and its subclasses;
    [OtherException] is any other subclass of [Exception]. *)
Inductive exc_class : Type :=
| ContentTypeError (http_status : Z)
| ClientResponseError (http_status : Z)
| ClientError
| KeyError
| IndexError
| AttributeError
| TypeError
| ValueError
| OverflowError
| OSError
| TimeoutError
| DecodeError
| UpdateFailed
| Invalid
| OtherException (name : string).

(** An exception instance: its class and [str(e)]. *)
Record exn : Type := Exn { exc_cls : exc_class; exc_str : string }.

Definition is_ClientResponseError (c : exc_class) : bool :=
  match c with
  | ContentTypeError _ | ClientResponseError _ => true
  | _ => false
  end.

Definition is_ClientError (c : exc_class) : bool :=
  match c with
  | ContentTypeError _ | ClientResponseError _ | ClientError => true
  | _ => false
  end.

Definition is_ContentTypeError (c : exc_class) : bool :=
  match c with ContentTypeError _ => true | _ => false end.

Definition is_KeyError (c : exc_class) : bool :=
  match c with KeyError => true | _ => false end.

Definition is_DecodeError (c : exc_class) : bool :=
  match c with DecodeError => true | _ => false end.

Definition is_Invalid (c : exc_class) : bool :=
  match c with Invalid => true | _ => false end.

Definition is_ValueError (c : exc_class) : bool :=
  match c with ValueError => true | _ => false end.

Definition is_TypeError (c : exc_class) : bool :=
  match c with TypeError => true | _ => false end.

(** What a call does: it returns, or it raises. *)
Inductive outcome (A : Type) : Type :=
| Ok (a : A)
| Raise (e : exn).
Arguments Ok {A} a.
Arguments Raise {A} e.

Definition obind {A B} (o : outcome A) (k : A -> outcome B) : outcome B :=
  match o with
  | Ok a => k a
  | Raise e => Raise e
  end.

Declare Scope outcome_scope.
Delimit Scope outcome_scope with outcome.
Notation "'let?' x ':=' o 'in' k" := (obind o (fun x => k))
  (at level 10, x name, o at level 100, k at level 200) : outcome_scope.
Local Open Scope outcome_scope.

(* ------------------------------------------------------------------ *)
(** * Operations on values *)

(** [type(v).__name__] *)
Definition type_name (v : pyobj) : string :=
  match v with
  | VNone => "NoneType"
  | VBool _ => "bool"
  | VInt _ => "int"
  | VFloat _ => "float"
  | VStr _ => "str"
  | VList _ => "list"
  | VDict _ => "dict"
  end.

(** [v.get(k, default)]: only a dict has the method. *)
Definition py_get (v : pyobj) (k : string) (default : pyobj) : outcome pyobj :=
  match v with
  | VDict entries =>
      Ok (match assoc k entries with Some x => x | None => default end)
  | _ => Raise (Exn AttributeError
                  ("'" ++ type_name v ++ "' object has no attribute 'get'"))
  end.

(** [v[0]].  The keys of a dict in this model are strings, so [0] is never
    one of them. *)
Definition py_index0 (v : pyobj) : outcome pyobj :=
  match v with
  | VList (x :: _) => Ok x
  | VList [] => Raise (Exn IndexError "list index out of range")
  | VStr (String c _) => Ok (VStr (String c ""))
  | VStr EmptyString => Raise (Exn IndexError "string index out of range")
  | VDict _ => Raise (Exn KeyError "0")
  | _ => Raise (Exn TypeError
                  ("'" ++ type_name v ++ "' object is not subscriptable"))
  end.

(** [len(v)] *)
Definition py_len (v : pyobj) : outcome pyobj :=
  match v with
  | VList items => Ok (VInt (Z.of_nat (List.length items)))
  | VDict entries => Ok (VInt (Z.of_nat (List.length entries)))
  | VStr s => Ok (VInt (Z.of_nat (String.length s)))
  | _ => Raise (Exn TypeError
                  ("object of type '" ++ type_name v ++ "' has no len()"))
  end.

Fixpoint chars (s : string) : list pyobj :=
  match s with
  | EmptyString => []
  | String c rest => VStr (String c "") :: chars rest
  end.

(** The items [for x in v] runs over: the elements of a list, the keys of
    a dict, the characters of a string. *)
Definition py_iter (v : pyobj) : outcome (list pyobj) :=
  match v with
  | VList items => Ok items
  | VDict entries => Ok (map (fun kv => VStr (fst kv)) entries)
  | VStr s => Ok (chars s)
  | _ => Raise (Exn TypeError
                  ("'" ++ type_name v ++ "' object is not iterable"))
  end.

(* ------------------------------------------------------------------ *)
(** * Text: [str()], [repr()] and [str.strip()] *)

Definition code (c : ascii) : N := N_of_ascii c.

Definition backslash : ascii := ascii_of_nat 92.
Definition squote : ascii := ascii_of_nat 39.
Definition dquote : ascii := ascii_of_nat 34.

Fixpoint contains (c : ascii) (s : string) : bool :=
  match s with
  | EmptyString => false
  | String c' rest => Ascii.eqb c c' || contains c rest
  end.

(** [str.isspace] on one code point below 256. *)
Definition is_space (c : ascii) : bool :=
  let n := code c in
  ((9 <=? n) && (n <=? 13) || (28 <=? n) && (n <=? 32)
   || (n =? 133) || (n =? 160))%N.

(** [str.isprintable] on one code point below 256. *)
Definition is_printable (c : ascii) : bool :=
  let n := code c in
  ((32 <=? n) && (n <? 127) || (161 <=? n) && negb (n =? 173))%N.

Definition hex_digit (n : N) : ascii :=
  match String.get (N.to_nat n) "0123456789abcdef" with
  | Some c => c
  | None => "0"%char
  end.

(** One character inside [repr] of a string quoted with [quote]. *)
Definition repr_char (quote c : ascii) : string :=
  if Ascii.eqb c quote || Ascii.eqb c backslash
  then String backslash (String c "")
  else if (code c =? 9)%N then String backslash "t"
  else if (code c =? 10)%N then String backslash "n"
  else if (code c =? 13)%N then String backslash "r"
  else if is_printable c then String c ""
  else String backslash
         (String "x" (String (hex_digit (code c / 16))
                        (String (hex_digit (code c mod 16)) ""))).

Fixpoint repr_chars (quote : ascii) (s : string) : string :=
  match s with
  | EmptyString => ""
  | String c rest => repr_char quote c ++ repr_chars quote rest
  end.

(** [repr(s)] for a string: single quotes, unless the text has a single
    quote and no double quote. *)
Definition repr_str (s : string) : string :=
  let quote := if contains squote s && negb (contains dquote s)
               then dquote else squote in
  String quote (repr_chars quote s ++ String quote "").

Definition str_int (n : Z) : string := NilZero.string_of_int (Z.to_int n).

(** ** [repr] of a float

    Python prints the shortest decimal that reads back as the same
    binary64 number, the one nearest to it when several do.  A finite
    float other than zero is [m * 2^e] with [m] positive. *)

(** [d * 10^k] against [n * 2^e]. *)
Definition compare_scaled (d k n e : Z) : comparison :=
  Z.compare (d * 10 ^ Z.max k 0 * 2 ^ Z.max (- e) 0)
            (n * 2 ^ Z.max e 0 * 10 ^ Z.max (- k) 0).

Definition scaled_leb (d k n e : Z) : bool :=
  match compare_scaled d k n e with Gt => false | _ => true end.

(** The largest [j] with [10^j <= m * 2^e]. *)
Definition floor_log10 (m e : Z) : Z :=
  let est := (Z.log2 m + e) * 30103 / 100000 in
  if scaled_leb 1 (est + 1) m e then est + 1
  else if scaled_leb 1 est m e then est
  else est - 1.

(** [floor (m * 2^e / 10^k)] *)
Definition floor_scaled (m e k : Z) : Z :=
  (m * 2 ^ Z.max e 0 * 10 ^ Z.max (- k) 0)
  / (10 ^ Z.max k 0 * 2 ^ Z.max (- e) 0).

(** Whether the decimal [d * 10^k] reads back as the float [m * 2^e]: it
    lies between the midpoints to the neighbouring floats, the midpoints
    included when [m] is even. *)
Definition reads_back (m e d k : Z) : bool :=
  let low := if (m =? 2 ^ 52) && (-1074 <? e) then 4 * m - 1 else 4 * m - 2 in
  let high := 4 * m + 2 in
  match compare_scaled d k low (e - 2) with
  | Gt => true | Eq => Z.even m | Lt => false
  end
  && match compare_scaled d k high (e - 2) with
     | Lt => true | Eq => Z.even m | Gt => false
     end.

(** The digits [d] and the exponent [k] of the shortest decimal
    [d * 10^k] that reads back as [m * 2^e], trying [n] digits and more
    ([fuel] more lengths; 17 digits always do). *)
Fixpoint shortest (fuel : nat) (n m e : Z) : Z * Z :=
  let k := floor_log10 m e - n + 1 in
  let lo := floor_scaled m e k in
  let hi := lo + 1 in
  let lo_ok := reads_back m e lo k in
  let hi_ok := reads_back m e hi k in
  if lo_ok && hi_ok
  then match compare_scaled (lo + hi) k (2 * m) e with
       | Lt => (hi, k)
       | Gt => (lo, k)
       | Eq => (if Z.even lo then lo else hi, k)
       end
  else if lo_ok then (lo, k)
  else if hi_ok then (hi, k)
  else match fuel with
       | O => (lo, k)
       | S fuel' => shortest fuel' (n + 1) m e
       end.

Fixpoint drop_zeros (fuel : nat) (d k : Z) : Z * Z :=
  match fuel with
  | O => (d, k)
  | S fuel' =>
      if d mod 10 =? 0 then drop_zeros fuel' (d / 10) (k + 1) else (d, k)
  end.

Fixpoint zeros (n : nat) : string :=
  match n with O => "" | S n' => String "0" (zeros n') end.

(** The digits laid out as [repr] does: exponent notation when the
    decimal point falls more than 16 places right or 4 places left of the
    first digit, and at least one digit after the point otherwise. *)
Definition float_repr_finite (m e : Z) : string :=
  let (d, k) := let (d, k) := shortest 17 1 m e in drop_zeros 17 d k in
  let digits := str_int d in
  let ndigits := Z.of_nat (String.length digits) in
  let decpt := ndigits + k in
  if (decpt <=? -4) || (16 <? decpt)
  then
    let x := decpt - 1 in
    String.substring 0 1 digits
    ++ (if 1 <? ndigits
        then "." ++ String.substring 1 (String.length digits - 1) digits
        else "")
    ++ "e" ++ (if x <? 0 then "-" else "+")
    ++ (if Z.abs x <? 10 then "0" else "") ++ str_int (Z.abs x)
  else if decpt <=? 0
  then "0." ++ zeros (Z.to_nat (- decpt)) ++ digits
  else if ndigits <=? decpt
  then digits ++ zeros (Z.to_nat (decpt - ndigits)) ++ ".0"
  else String.substring 0 (Z.to_nat decpt) digits ++ "."
       ++ String.substring (Z.to_nat decpt) (Z.to_nat (ndigits - decpt)) digits.

Definition float_repr (f : float) : string :=
  match Prim2SF f with
  | S754_zero s => if s then "-0.0" else "0.0"
  | S754_infinity s => if s then "-inf" else "inf"
  | S754_nan => "nan"
  | S754_finite s m e =>
      (if s then "-" else "") ++ float_repr_finite (Zpos m) e
  end.

(** The whole part of the float [m * 2^e]. *)
Definition float_floor (m : positive) (e : Z) : Z :=
  Zpos m * 2 ^ Z.max e 0 / 2 ^ Z.max (- e) 0.

(** [int(f)]: the float cut off towards zero. *)
Definition float_int (f : float) : outcome Z :=
  match Prim2SF f with
  | S754_zero _ => Ok 0
  | S754_finite s m e => Ok (if s then - float_floor m e else float_floor m e)
  | S754_infinity _ =>
      Raise (Exn OverflowError "cannot convert float infinity to integer")
  | S754_nan => Raise (Exn ValueError "cannot convert float NaN to integer")
  end.

(** [repr(v)] *)
Fixpoint py_repr (v : pyobj) : string :=
  match v with
  | VNone => "None"
  | VBool b => if b then "True" else "False"
  | VInt n => str_int n
  | VFloat f => float_repr f
  | VStr s => repr_str s
  | VList items =>
      "[" ++ String.concat ", " (map py_repr items) ++ "]"
  | VDict entries =>
      "{" ++ String.concat ", "
               (map (fun kv => repr_str (fst kv) ++ ": " ++ py_repr (snd kv))
                    entries) ++ "}"
  end.

(** [str(v)], which is also what an f-string field [{v}] inserts. *)
Definition py_str (v : pyobj) : string :=
  match v with
  | VStr s => s
  | _ => py_repr v
  end.

Fixpoint lstrip (s : string) : string :=
  match s with
  | EmptyString => EmptyString
  | String c rest => if is_space c then lstrip rest else s
  end.

Fixpoint rstrip (s : string) : string :=
  match s with
  | EmptyString => EmptyString
  | String c rest =>
      match rstrip rest with
      | EmptyString => if is_space c then EmptyString else String c EmptyString
      | rest' => String c rest'
      end
  end.

(** [s.strip()] *)
Definition strip (s : string) : string := rstrip (lstrip s).

(* ------------------------------------------------------------------ *)
(** * Time *)

Definition datetime : Type := Z.
Definition timedelta : Type := Z.

Definition timedelta_minutes (m : Z) : timedelta := m * 60 * 1000000.
Definition timedelta_hours (h : Z) : timedelta := h * 3600 * 1000000.

(** The seconds since the epoch of [datetime.min] (0001-01-01T00:00:00)
    and of the last second of [datetime.max] (9999-12-31T23:59:59), read
    as UTC. *)
Definition SECONDS_MIN : Z := -62135596800.
Definition SECONDS_MAX : Z := 253402300799.

(** [datetime.min] and [datetime.max] with [tzinfo=timezone.utc]. *)
Definition DATETIME_MIN : datetime := SECONDS_MIN * 1000000.
Definition DATETIME_MAX : datetime := SECONDS_MAX * 1000000 + 999999.

Definition in_calendar (t : Z) : bool :=
  (DATETIME_MIN <=? t) && (t <=? DATETIME_MAX).

(** [d + delta] and [d - delta]: a result outside the calendar raises. *)
Definition datetime_add (d : datetime) (delta : timedelta) : outcome datetime :=
  if in_calendar (d + delta) then Ok (d + delta)
  else Raise (Exn OverflowError "date value out of range").

Definition datetime_sub (d : datetime) (delta : timedelta) : outcome datetime :=
  if in_calendar (d - delta) then Ok (d - delta)
  else Raise (Exn OverflowError "date value out of range").

(** ** [datetime.fromtimestamp(v, timezone.utc)]

    The timestamp is split into whole seconds (a C [time_t], 64 bits) and
    microseconds; [gmtime] turns the seconds into a calendar date; the
    date must lie in the years 1 to 9999.  The limits of [time_t] and of
    [gmtime] are those of 64-bit Linux. *)

Definition TIME_T_MIN : Z := -9223372036854775808.
Definition TIME_T_MAX : Z := 9223372036854775807.

(** The seconds [gmtime] converts: the year, counted from 1900, must fit
    a C [int]. *)
Definition GMTIME_MIN : Z := -67768040609740800.
Definition GMTIME_MAX : Z := 67768036191676799.

Definition round_half_even (num den : Z) : Z :=
  let q := num / den in
  match Z.compare (2 * (num mod den)) den with
  | Lt => q
  | Gt => q + 1
  | Eq => if Z.even q then q else q + 1
  end.

(** The integer nearest to a float that is not negative. *)
Definition float_rint (f : float) : Z :=
  match Prim2SF f with
  | S754_finite _ m e =>
      round_half_even (Zpos m * 2 ^ Z.max e 0) (2 ^ Z.max (- e) 0)
  | _ => 0
  end.

(** A finite float timestamp in microseconds: the whole seconds, and the
    fraction times a million, computed in floating point and rounded to
    the nearest integer, half to even. *)
Definition float_micros (f : float) : Z :=
  match Prim2SF f with
  | S754_finite s m e =>
      let whole := float_floor m e in
      let part :=
        if 0 <=? e then 0
        else float_rint
               (PrimFloat.mul
                  (PrimFloat.sub (PrimFloat.abs f)
                     (PrimFloat.of_uint63 (Uint63.of_Z whole)))
                  1000000%float) in
      let total := whole * 1000000 + part in
      if s then - total else total
  | _ => 0
  end.

Definition time_t_overflow {A} : outcome A :=
  Raise (Exn OverflowError "timestamp out of range for platform time_t").

(** The seconds and microseconds of a timestamp. *)
Definition timestamp_parts (v : pyobj) : outcome (Z * Z) :=
  let of_int n :=
    if (n <? TIME_T_MIN) || (TIME_T_MAX <? n) then time_t_overflow
    else Ok (n, 0) in
  match v with
  | VInt n => of_int n
  | VBool b => of_int (if b then 1 else 0)
  | VFloat f =>
      match Prim2SF f with
      | S754_nan => Raise (Exn ValueError "Invalid value NaN (not a number)")
      | S754_infinity _ => time_t_overflow
      | _ =>
          let total := float_micros f in
          let sec := total / 1000000 in
          if (sec <? TIME_T_MIN) || (TIME_T_MAX + 1 <? sec) then time_t_overflow
          else Ok (sec, total mod 1000000)
      end
  | _ => Raise (Exn TypeError
                  ("'" ++ type_name v
                       ++ "' object cannot be interpreted as an integer"))
  end.

(** The year of the day that holds the second [sec]. *)
Definition year_of (sec : Z) : Z :=
  let z := sec / 86400 + 719468 in
  let era := z / 146097 in
  let doe := z - era * 146097 in
  let yoe := (doe - doe / 1460 + doe / 36524 - doe / 146096) / 365 in
  let doy := doe - (365 * yoe + yoe / 4 - yoe / 100) in
  let mp := (5 * doy + 2) / 153 in
  yoe + era * 400 + (if mp <? 10 then 0 else 1).

(** A C [int] that has overflowed. *)
Definition wrap32 (y : Z) : Z := (y + 2 ^ 31) mod 2 ^ 32 - 2 ^ 31.

(** The instant of [sec] seconds and [us] microseconds, when [gmtime]
    converts the seconds and the date is in the calendar. *)
Definition utc_from_parts (sec us : Z) : outcome datetime :=
  if (sec <? GMTIME_MIN) || (GMTIME_MAX <? sec)
  then Raise (Exn OSError "[Errno 75] Value too large for defined data type")
  else if (sec <? SECONDS_MIN) || (SECONDS_MAX <? sec)
  then Raise (Exn ValueError
                ("year " ++ str_int (wrap32 (year_of sec)) ++ " is out of range"))
  else Ok (sec * 1000000 + us).

Definition datetime_fromtimestamp (v : pyobj) : outcome datetime :=
  let? parts := timestamp_parts v in
  utc_from_parts (fst parts) (snd parts).

(* ------------------------------------------------------------------ *)
(** * The coordinator ([coordinator.py]) *)

Module Coordinator.

(** ** Constants ([const.py]) *)

Definition API_VERSION : string := "v1".
Definition API_LOGIN_URL : string :=
  "https://mijn-liander-gateway.web.liander.nl/api/" ++ API_VERSION ++ "/auth/login".
Definition API_AANSLUITINGEN_URL : string :=
  "https://mijn-liander-gateway.web.liander.nl/api/" ++ API_VERSION ++ "/aansluitingen".

(** ** Requests, responses, log records *)

Inductive http_method : Type := GET | POST.

Record request : Type := Request {
  req_method : http_method;
  req_url : string;
  req_headers : list (string * string);
  req_json : option pyobj
}.

(** A response as the code reads it: [response.status] and what
    [await response.json()] does. *)
Record response : Type := Response {
  status : Z;
  json : outcome pyobj
}.

(** [response.raise_for_status()]: aiohttp raises [ClientResponseError]
    for a status of 400 and above. *)
Definition raise_for_status (r : response) : outcome unit :=
  if 400 <=? status r
  then Raise (Exn (ClientResponseError (status r)) "bad status")
  else Ok tt.

Inductive log_level : Type := DEBUG | WARNING | ERROR.

(** A log record: the level and the message template of the call (the
    arguments interpolated into it are not kept). *)
Definition log_record : Type := (log_level * string)%type.

(** ** The outside world *)

(** What the clock can read: an instant at least one hour away from both
    ends of the calendar. *)
Definition clock_reading (t : datetime) : Prop :=
  DATETIME_MIN + timedelta_hours 1 <= t <= DATETIME_MAX - timedelta_hours 1.

Record Env : Type := {
  (** the [k]-th reading of [datetime.now(timezone.utc)] *)
  now_at : nat -> datetime;
  now_in_range : forall k, clock_reading (now_at k);
  (** what the session does with a request, given how many requests the
      coordinator has issued before it: a response, or an exception
      (connection failure, timeout, ...) *)
  respond : nat -> request -> outcome response;
  (** [jwt.decode(token, options={"verify_signature": False})] *)
  jwt_decode : pyobj -> outcome pyobj
}.

(** ** The coordinator's state *)

Record coordinator : Type := Coord {
  _username : string;
  _password : string;
  _token : pyobj;
  _token_expiry : option datetime;
  (** clock readings taken so far *)
  ticks : nat;
  (** requests issued so far, oldest first *)
  sent : list request;
  (** log records emitted so far, oldest first *)
  logged : list log_record
}.

(** [__init__]: no token, no expiry. *)
Definition init (username password : string) : coordinator :=
  Coord username password VNone None 0 [] [].

Definition set_token (v : pyobj) (c : coordinator) : coordinator :=
  Coord (_username c) (_password c) v (_token_expiry c)
        (ticks c) (sent c) (logged c).

Definition set_token_expiry (e : option datetime) (c : coordinator) : coordinator :=
  Coord (_username c) (_password c) (_token c) e
        (ticks c) (sent c) (logged c).

(** ** Computations: state passing with exceptions

    A raised exception keeps the state reached so far, as an assignment to
    [self] made before a [raise] stays made. *)

Definition M (A : Type) : Type := coordinator -> outcome A * coordinator.

Definition ret {A} (a : A) : M A := fun c => (Ok a, c).

Definition bind {A B} (m : M A) (k : A -> M B) : M B :=
  fun c =>
    match m c with
    | (Ok a, c') => k a c'
    | (Raise e, c') => (Raise e, c')
    end.

Definition raise {A} (cls : exc_class) (msg : string) : M A :=
  fun c => (Raise (Exn cls msg), c).

Definition reraise {A} (e : exn) : M A := fun c => (Raise e, c).

(** [try: body  except ... as e: handler e] *)
Definition try_except {A} (body : M A) (handler : exn -> M A) : M A :=
  fun c =>
    match body c with
    | (Ok a, c') => (Ok a, c')
    | (Raise e, c') => handler e c'
    end.

Definition lift {A} (o : outcome A) : M A := fun c => (o, c).

Definition get_self : M coordinator := fun c => (Ok c, c).

Definition modify (f : coordinator -> coordinator) : M unit :=
  fun c => (Ok tt, f c).

Declare Scope coord_scope.
Delimit Scope coord_scope with coord.
Notation "x <- m ;; k" := (bind m (fun x => k))
  (at level 61, m at next level, right associativity) : coord_scope.
Notation "m ;; k" := (bind m (fun _ => k))
  (at level 61, right associativity) : coord_scope.
Local Open Scope coord_scope.

Definition log (lvl : log_level) (msg : string) : M unit :=
  modify (fun c =>
    Coord (_username c) (_password c) (_token c) (_token_expiry c)
          (ticks c) (sent c) (logged c ++ [(lvl, msg)])).

(** [if cond: body] with no [else]. *)
Definition when (cond : bool) (body : M unit) : M unit :=
  if cond then body else ret tt.

Section WithEnv.

Variable env : Env.

(** [datetime.now(timezone.utc)] *)
Definition datetime_now : M datetime :=
  fun c =>
    (Ok (now_at env (ticks c)),
     Coord (_username c) (_password c) (_token c) (_token_expiry c)
           (S (ticks c)) (sent c) (logged c)).

(** Issue a request on [self._session] and enter the response's context. *)
Definition session_request (r : request) : M response :=
  fun c =>
    (respond env (List.length (sent c)) r,
     Coord (_username c) (_password c) (_token c) (_token_expiry c)
           (ticks c) (sent c ++ [r]) (logged c)).

(** ** [_async_renew_token] *)

Definition _async_renew_token : M unit :=
  log DEBUG "Renewing token..." ;;
  self <- get_self ;;
  let login_data :=
    VDict [("username", VStr (_username self));
           ("password", VStr (_password self))] in
  log DEBUG "Request data: %s" ;;
  try_except
    (response <- session_request
                   (Request POST API_LOGIN_URL [] (Some login_data)) ;;
     lift (raise_for_status response) ;;
     when (status response =? 401)
       (log ERROR "Token expired or unauthorized." ;;
        raise UpdateFailed "Unauthorized, token expired.") ;;
     login_response <- lift (json response) ;;
     jwt <- lift (py_get login_response "jwt" VNone) ;;
     modify (set_token jwt) ;;
     when (negb (truthy jwt))
       (raise UpdateFailed "JWT token not found in login response.") ;;
     try_except
       (decoded_token <- lift (jwt_decode env jwt) ;;
        exp_timestamp <- lift (py_get decoded_token "exp" VNone) ;;
        expiry <- (if truthy exp_timestamp
                   then lift (datetime_fromtimestamp exp_timestamp)
                   else (now <- datetime_now ;;
                         lift (datetime_add now (timedelta_hours 1)))) ;;
        modify (set_token_expiry (Some expiry)))
       (fun e =>
          if is_DecodeError (exc_cls e)
          then log ERROR "Failed to decode JWT token: %s" ;;
               raise UpdateFailed ("JWT decode error: " ++ exc_str e)
          else reraise e) ;;
     log DEBUG "Token refreshed successfully, new expiry at %s")
    (fun e =>
       if is_ContentTypeError (exc_cls e) || is_KeyError (exc_cls e)
       then log ERROR "Invalid JSON response during token renewal: %s" ;;
            raise UpdateFailed "Invalid JSON response during token renewal."
       else if is_ClientError (exc_cls e)
       then log ERROR "Error renewing token: %s" ;;
            raise UpdateFailed ("Error renewing token: " ++ exc_str e)
       else log ERROR "Unexpected error during token renewal: %s" ;;
            raise UpdateFailed ("Unexpected error renewing token: " ++ exc_str e)).

(** ** [is_token_expired]

    [self._token_expiry] is [None] or a [datetime]; a [datetime] is always
    true in a condition, so [not self._token_expiry] holds exactly for
    [None]. *)

Definition is_token_expired : M bool :=
  self <- get_self ;;
  match _token_expiry self with
  | None => ret true
  | Some expiry =>
      now <- datetime_now ;;
      warn_from <- lift (datetime_sub expiry (timedelta_minutes 30)) ;;
      when (warn_from <=? now)
        (log WARNING "Token is about to expire in less than 30 minutes.") ;;
      expired_from <- lift (datetime_sub expiry (timedelta_minutes 5)) ;;
      ret (expired_from <=? now)
  end.

(** ** [get_valid_token] *)

Definition get_valid_token : M pyobj :=
  self <- get_self ;;
  when (negb (truthy (_token self)))
    (log DEBUG "Token is not available, re-authenticating..." ;;
     _async_renew_token) ;;
  expired <- is_token_expired ;;
  when expired
    (log DEBUG "Token is expired, re-authenticating..." ;;
     _async_renew_token) ;;
  self <- get_self ;;
  if is_none (_token self)
  then raise UpdateFailed "Token is not available after renewal."
  else ret (_token self).

(** ** [_async_update_data] *)

Definition _async_update_data : M pyobj :=
  jwt_token <- get_valid_token ;;
  let headers := [("Authorization", "Bearer " ++ py_str jwt_token)] in
  try_except
    (response <- session_request
                   (Request GET API_AANSLUITINGEN_URL headers None) ;;
     lift (raise_for_status response) ;;
     when (status response =? 401)
       (log ERROR "Token expired or unauthorized." ;;
        raise UpdateFailed "Unauthorized, token expired.") ;;
     when (status response =? 503)
       (log ERROR "Token expired or service unavailable." ;;
        raise UpdateFailed "Service unavailable, token expired.") ;;
     data <- lift (json response) ;;
     log DEBUG "Data fetched successfully from Liander API: %s" ;;
     ret data)
    (fun e =>
       if is_ContentTypeError (exc_cls e)
       then log ERROR "Invalid JSON response received from Liander API." ;;
            raise UpdateFailed "Invalid JSON response from Liander API."
       else if is_ClientError (exc_cls e)
       then log ERROR "Error fetching data from Liander API: %s" ;;
            raise UpdateFailed
              ("Error fetching data from Liander API: " ++ exc_str e)
       else log ERROR "Unexpected error fetching data: %s" ;;
            raise UpdateFailed ("Unexpected error fetching data: " ++ exc_str e)).

End WithEnv.

(** ** The fixture [example_data] *)

Definition example_data : pyobj :=
  VList [
    VDict [
      ("adres", VDict [
         ("postcode", VStr "1000 AAB");
         ("straat", VStr "Mijnstraat");
         ("huisnummer", VStr "1");
         ("toevoeging", VStr "");
         ("plaats", VStr "AMSTERDAM")]);
      ("aansluitingen", VDict [
         ("elektra", VList [
            VDict [
              ("type", VStr "ElektraAansluiting");
              ("ean", VStr "123456789012345678");
              ("aansluitwaarde", VStr "3x25A");
              ("status", VStr "In bedrijf");
              ("netwerkkosten", VStr "400.92");
              ("meters", VList [
                 VDict [
                   ("type", VStr "Elektrameter");
                   ("meternummer", VStr "E0000000000000000");
                   ("aantalTelwerken", VInt 4);
                   ("aantalFasen", VStr "3")]]);
              ("maximaalVermogen", VStr "17")]]);
         ("gas", VList [])])]].

(** ** Notions used in the statements *)

(** The request [_async_renew_token] sends for a coordinator. *)
Definition login_request (c : coordinator) : request :=
  Request POST API_LOGIN_URL []
    (Some (VDict [("username", VStr (_username c));
                  ("password", VStr (_password c))])).

(** The request [_async_update_data] sends with the token [tok]. *)
Definition data_request (tok : pyobj) : request :=
  Request GET API_AANSLUITINGEN_URL
    [("Authorization", "Bearer " ++ py_str tok)] None.

(** [get_valid_token] from its expiry check on. *)
Definition check_and_return (env : Env) : M pyobj :=
  expired <- is_token_expired env ;;
  when expired
    (log DEBUG "Token is expired, re-authenticating..." ;;
     _async_renew_token env) ;;
  self <- get_self ;;
  if is_none (_token self)
  then raise UpdateFailed "Token is not available after renewal."
  else ret (_token self).

(** The coordinator after a log call. *)
Definition noted (lvl : log_level) (msg : string) (c : coordinator)
  : coordinator :=
  snd (log lvl msg c).

(** The stored expiries on which the two subtractions of
    [is_token_expired] stay in the calendar. *)
Definition checkable (expiry : datetime) : Prop :=
  DATETIME_MIN + timedelta_minutes 30 <= expiry
  <= DATETIME_MAX + timedelta_minutes 5.

(** The expiry check on [c0] and what follows it in [get_valid_token],
    when they leave a coordinator [c1] whose token is returned: either the
    check answers [False] and leaves [c1], or it answers [True] and the
    renewal that follows leaves [c1], of which nothing is checked again. *)
Definition checked_or_renewed (env : Env) (c0 c1 : coordinator) : Prop :=
  is_token_expired env c0 = (Ok false, c1)
  \/ exists c',
       is_token_expired env c0 = (Ok true, c')
       /\ _async_renew_token env
            (noted DEBUG "Token is expired, re-authenticating..." c')
          = (Ok tt, c1).

(** How [get_valid_token] comes from [c] to a coordinator [c1] whose token
    it returns: the expiry check runs on [c] when [c] holds a token, and
    else on the coordinator a first renewal leaves. *)
Definition obtains (env : Env) (c c1 : coordinator) : Prop :=
  exists c0,
    (truthy (_token c) = true /\ c0 = c
     \/ truthy (_token c) = false
        /\ _async_renew_token env
             (noted DEBUG "Token is not available, re-authenticating..." c)
           = (Ok tt, c0))
    /\ checked_or_renewed env c0 c1.

(** The exception of the expiry check: the subtraction left the
    calendar. *)
Definition check_overflow (c' : coordinator) (e : exn) : Prop :=
  e = Exn OverflowError "date value out of range"
  /\ exists expiry,
       _token_expiry c' = Some expiry
       /\ (expiry < DATETIME_MIN + timedelta_minutes 30
           \/ DATETIME_MAX + timedelta_minutes 5 < expiry).

(** What a run of [get_valid_token] from [c] to [c'] with outcome [o]
    guarantees: only login requests were added; a failure is an
    [UpdateFailed] or the overflow of the expiry check; a returned token
    is the stored one, is true in a condition, and was obtained as
    [obtains] says. *)
Definition valid_return (env : Env) (c c' : coordinator) (o : outcome pyobj)
  : Prop :=
  (exists k, (k <= 2)%nat
     /\ sent c' = (sent c ++ repeat (login_request c) k)%list)
  /\ _username c' = _username c /\ _password c' = _password c
  /\ match o with
     | Raise e => exc_cls e = UpdateFailed \/ check_overflow c' e
     | Ok tok =>
         tok = _token c' /\ truthy tok = true
         /\ (exists expiry,
               _token_expiry c' = Some expiry
               /\ expiry <= DATETIME_MAX + timedelta_minutes 5)
         /\ obtains env c c'
     end.

End Coordinator.

(* ------------------------------------------------------------------ *)
(** * The sensor platform ([sensor.py]) *)

Module Sensor.

(** The chain [if key == ... elif ...] over the fields of the first
    electricity connection; [value] is left as it is when no key matches. *)
Definition elektra_field (key : string) (elektra value : pyobj) : outcome pyobj :=
  if String.eqb key "electricity_ean" then py_get elektra "ean" VNone
  else if String.eqb key "connection_capacity"
  then py_get elektra "aansluitwaarde" VNone
  else if String.eqb key "status" then py_get elektra "status" VNone
  else if String.eqb key "network_costs" then py_get elektra "netwerkkosten" VNone
  else if String.eqb key "maximum_power"
  then py_get elektra "maximaalVermogen" VNone
  else Ok value.

(** The chain over the fields of the first meter. *)
Definition meter_field (key : string) (meter value : pyobj) : outcome pyobj :=
  if String.eqb key "meter_number" then py_get meter "meternummer" VNone
  else if String.eqb key "number_of_registers"
  then py_get meter "aantalTelwerken" VNone
  else if String.eqb key "number_of_phases" then py_get meter "aantalFasen" VNone
  else Ok value.

(** The body of [for account in data], with the local [value] threaded
    through the iterations as the source's variable is. *)
Fixpoint accounts_loop (key : string) (value : pyobj) (accounts : list pyobj)
  : outcome pyobj :=
  match accounts with
  | [] => Ok VNone
  | account :: rest =>
      let? address := py_get account "adres" (VDict []) in
      if truthy address && isinstance_dict address && String.eqb key "address"
      then
        let? street := py_get address "straat" (VStr "") in
        let? house_number := py_get address "huisnummer" (VStr "") in
        let? addition := py_get address "toevoeging" (VStr "") in
        let? postal_code := py_get address "postcode" (VStr "") in
        let? city := py_get address "plaats" (VStr "") in
        Ok (VStr (strip (py_str street ++ " " ++ py_str house_number
                         ++ py_str addition ++ " " ++ py_str postal_code
                         ++ " " ++ py_str city)))
      else
        let? aansluitingen := py_get account "aansluitingen" (VDict []) in
        let? elektra_connections := py_get aansluitingen "elektra" (VList []) in
        if truthy elektra_connections
        then
          let? elektra := py_index0 elektra_connections in
          let? value := elektra_field key elektra value in
          let? meters := py_get elektra "meters" (VList []) in
          let? value :=
            (if truthy meters
             then
               let? value := (if String.eqb key "number_of_meters"
                              then py_len meters else Ok value) in
               let? meter := py_index0 meters in
               meter_field key meter value
             else Ok value) in
          if negb (is_none value) then Ok value
          else accounts_loop key value rest
        else accounts_loop key value rest
  end.

(** [LianderSensor.native_value] for the sensor whose description has
    [key], on the coordinator's [data]. *)
Definition native_value (key : string) (data : pyobj) : outcome pyobj :=
  if truthy data
  then let? accounts := py_iter data in accounts_loop key VNone accounts
  else Ok VNone.

End Sensor.

(* ------------------------------------------------------------------ *)
(** * The binary sensor platform ([binary_sensor.py]) *)

Module BinarySensor.

Fixpoint accounts_loop (key : string) (accounts : list pyobj) : outcome pyobj :=
  match accounts with
  | [] => Ok (VBool false)
  | account :: rest =>
      let? aansluitingen := py_get account "aansluitingen" (VDict []) in
      let? elektra_connections := py_get aansluitingen "elektra" (VList []) in
      if truthy elektra_connections
      then
        let? elektra := py_index0 elektra_connections in
        let? meters := py_get elektra "meters" (VList []) in
        if String.eqb key "contract"
        then py_get elektra "contract" (VBool false)
        else if String.eqb key "toestemmingVoorUitlezen"
        then py_get elektra "toestemmingVoorUitlezen" (VBool false)
        else if String.eqb key "slimmeMeter" && truthy meters
        then let? meter := py_index0 meters in
             py_get meter "slimmeMeter" (VBool false)
        else if String.eqb key "geschiktVoorTerugleveren" && truthy meters
        then let? meter := py_index0 meters in
             py_get meter "geschiktVoorTerugleveren" (VBool false)
        else if String.eqb key "geschiktVoorDubbeltarief" && truthy meters
        then let? meter := py_index0 meters in
             py_get meter "geschiktVoorDubbeltarief" (VBool false)
        else if String.eqb key "levertTerug"
        then py_get elektra "levertTerug" (VBool false)
        else accounts_loop key rest
      else accounts_loop key rest
  end.

(** [LianderBinarySensor.is_on] for the sensor whose description has
    [key], on the coordinator's [data]. *)
Definition is_on (key : string) (data : pyobj) : outcome pyobj :=
  if negb (truthy data) then Ok (VBool false)
  else let? accounts := py_iter data in accounts_loop key accounts.

End BinarySensor.

(* ------------------------------------------------------------------ *)
(** * The shape of the records the sensors read *)

Module Shape.











End Shape.

(* ------------------------------------------------------------------ *)
(** * The config flow ([config_flow.py]) *)

Module ConfigFlow.

Import Coordinator.

Definition CONF_USERNAME : string := "username".
Definition CONF_PASSWORD : string := "password".

(** What the flow asks of the outside. *)
Record FlowEnv : Type := {
  (** Python's [int(s)] on text: the integer, or [None] where it raises
      [ValueError] *)
  int_of_text : string -> option Z;
  (** [session.post(url, json=..., timeout=...)] on a fresh session *)
  post : string -> pyobj -> Z -> outcome response;
  (** [await self.async_set_unique_id(unique_id)] *)
  async_set_unique_id : string -> outcome unit;
  (** [self._async_current_entries()] is a non-empty list *)
  has_current_entries : bool
}.

Definition invalid {A} (msg : string) : outcome A := Raise (Exn Invalid msg).

(** ** The validators of the schema *)

(** [cv.string]: text as it is, no [None], no list or dict, anything else
    through [str()]. *)
Definition cv_string (v : pyobj) : outcome pyobj :=
  match v with
  | VNone => invalid "string value is None"
  | VStr s => Ok (VStr s)
  | VList _ | VDict _ => invalid "value should be a string"
  | _ => Ok (VStr (py_str v))
  end.

Section WithFlowEnv.

Variable env : FlowEnv.

(** [int(v)]: a float is cut off towards zero. *)
Definition py_int (v : pyobj) : outcome Z :=
  match v with
  | VInt n => Ok n
  | VBool b => Ok (if b then 1 else 0)
  | VFloat f => float_int f
  | VStr s =>
      match int_of_text env s with
      | Some n => Ok n
      | None =>
          Raise (Exn ValueError
                   ("invalid literal for int() with base 10: " ++ repr_str s))
      end
  | _ =>
      Raise (Exn TypeError
               ("int() argument must be a string, a bytes-like object or a "
                ++ "real number, not '" ++ type_name v ++ "'"))
  end.

(** [vol.Coerce(int)]: [int(v)], with [ValueError] and [TypeError] turned
    into [Invalid]; any other exception of [int] leaves as it is. *)
Definition Coerce_int (v : pyobj) : outcome Z :=
  match py_int v with
  | Ok n => Ok n
  | Raise e =>
      if is_ValueError (exc_cls e) || is_TypeError (exc_cls e)
      then invalid "expected int"
      else Raise e
  end.

Definition bound_text (bound : option Z) : string :=
  match bound with Some b => str_int b | None => "None" end.

(** [vol.Range(min=..., max=...)] *)
Definition Range (min max : option Z) (n : Z) : outcome Z :=
  if match min with Some lo => n <? lo | None => false end
  then invalid ("value must be at least " ++ bound_text min)
  else if match max with Some hi => hi <? n | None => false end
  then invalid ("value must be at most " ++ bound_text max)
  else Ok n.

(** [cv.positive_int = vol.All(vol.Coerce(int), vol.Range(min=0))] *)
Definition positive_int (v : pyobj) : outcome Z :=
  let? n := Coerce_int v in Range (Some 0) None n.

(** [vol.All(cv.positive_int, vol.Range(min=1, max=30))] *)
Definition timeout_validator (v : pyobj) : outcome Z :=
  let? n := positive_int v in Range (Some 1) (Some 30) n.

(** One item of the input against the schema's keys. *)
Definition validate_item (kv : string * pyobj) : outcome (string * pyobj) :=
  let (k, v) := kv in
  if String.eqb k CONF_USERNAME then let? s := cv_string v in Ok (k, s)
  else if String.eqb k CONF_PASSWORD then let? s := cv_string v in Ok (k, s)
  else if String.eqb k "timeout"
  then let? n := timeout_validator v in Ok (k, VInt n)
  else invalid "extra keys not allowed".

(** The pass over the items: the validated items, and the [Invalid]
    errors of the others, which are collected; an exception of another
    class leaves at once. *)
Fixpoint validate_items (entries : list (string * pyobj))
  : outcome (list (string * pyobj) * list exn) :=
  match entries with
  | [] => Ok ([], [])
  | kv :: rest =>
      match validate_item kv with
      | Ok kv' =>
          let? more := validate_items rest in
          Ok (kv' :: fst more, snd more)
      | Raise e =>
          if is_Invalid (exc_cls e)
          then let? more := validate_items rest in Ok (fst more, e :: snd more)
          else Raise e
      end
  end.

Definition has_key (k : string) (entries : list (string * pyobj)) : bool :=
  match assoc k entries with Some _ => true | None => false end.

Definition required (k : string) (entries : list (string * pyobj)) : list exn :=
  if has_key k entries then [] else [Exn Invalid "required key not provided"].

(** [STEP_USER_DATA_SCHEMA(data)]: the default of an omitted optional key
    is put in, every item is validated, and the required keys must be
    there.  The errors found are raised together as
    [vol.MultipleInvalid], a subclass of [vol.Invalid] that reads as its
    first error. *)
Definition STEP_USER_DATA_SCHEMA (data : pyobj) : outcome pyobj :=
  match data with
  | VDict entries =>
      let given :=
        if has_key "timeout" entries then entries
        else (entries ++ [("timeout", VInt 5)])%list in
      let? validated := validate_items given in
      match (snd validated ++ required CONF_USERNAME entries
             ++ required CONF_PASSWORD entries)%list with
      | [] => Ok (VDict (fst validated))
      | e :: _ => invalid (exc_str e)
      end
  | _ => invalid "expected a dictionary"
  end.

(** ** [_map_http_error] *)

Definition _map_http_error (e : exn) : string :=
  let status_of :=
    match exc_cls e with
    | ContentTypeError st | ClientResponseError st => st
    | _ => 0
    end in
  if status_of =? 401 then "invalid_auth"
  else if status_of =? 403 then "forbidden"
  else if status_of =? 404 then "not_found"
  else if status_of =? 429 then "too_many_requests"
  else if status_of =? 503 then "service_unavailable"
  else "unknown_error".

(** ** [_validate_input] *)

Definition LOGIN_URL : string :=
  "https://mijn-liander-gateway.web.liander.nl/api/v1/auth/login".

Definition error_result (code : string) : pyobj :=
  VDict [("status", VStr "error"); ("error", VStr code)].

Definition _validate_input (username password : pyobj) (timeout : Z)
  : outcome pyobj :=
  let login_data := VDict [("username", username); ("password", password)] in
  let body :=
    let? response := post env LOGIN_URL login_data timeout in
    let? _ := raise_for_status response in
    let? login_response := json response in
    let? jwt_token := py_get login_response "jwt" VNone in
    if truthy jwt_token
    then Ok (VDict [("status", VStr "success"); ("jwt_token", jwt_token)])
    else Ok (error_result "invalid_auth") in
  match body with
  | Ok r => Ok r
  | Raise e =>
      if is_ClientResponseError (exc_cls e)
      then Ok (error_result (_map_http_error e))
      else if is_ClientError (exc_cls e)
      then Ok (error_result "network_error")
      else Raise e
  end.

(** ** [ConfigFlow.map_error_to_message] *)

Definition map_error_to_message (error_code : string) : string :=
  if String.eqb error_code "invalid_auth"
  then "Invalid username or password."
  else if String.eqb error_code "service_unavailable"
  then "The service is currently unavailable. Please try again later."
  else if String.eqb error_code "network_error"
  then "Network error. Check your internet connection."
  else if String.eqb error_code "invalid_timeout"
  then "The timeout value is invalid. Please provide a value between 1 and 30 seconds."
  else if String.eqb error_code "already_configured"
  then "This entry is already configured. Please use a different username or update the existing configuration."
  else if String.eqb error_code "unknown_error"
  then "An unknown error occurred. Please try again."
  else "unknown_error".

(** ** [ConfigFlow.async_step_user] *)

(** What a step hands back to the framework. *)
Inductive FlowResult : Type :=
| async_show_form (step_id : string) (errors : list (string * string))
| async_abort (reason : string)
| async_create_entry (title : pyobj) (data : pyobj).

(** [d[k]] on a dict that has the key. *)
Definition py_getitem (d : pyobj) (k : string) : outcome pyobj :=
  match d with
  | VDict entries =>
      match assoc k entries with
      | Some v => Ok v
      | None => Raise (Exn KeyError (repr_str k))
      end
  | VList _ =>
      Raise (Exn TypeError "list indices must be integers or slices, not str")
  | VStr _ => Raise (Exn TypeError "string indices must be integers, not 'str'")
  | _ => Raise (Exn TypeError
                  ("'" ++ type_name d ++ "' object is not subscriptable"))
  end.

Definition is_str (v : pyobj) (s : string) : bool :=
  match v with VStr s' => String.eqb s' s | _ => false end.

Definition as_int (v : pyobj) : Z :=
  match v with VInt n => n | _ => 0 end.

(** The [try] block of the step: [inl] is a [return] from inside it,
    [inr] the errors it leaves for the form. *)
Definition step_user_body (user_input : pyobj)
  : outcome (FlowResult + list (string * string)) :=
  let? validated_data := STEP_USER_DATA_SCHEMA user_input in
  let? username := py_getitem validated_data CONF_USERNAME in
  let? password := py_getitem validated_data CONF_PASSWORD in
  let? timeout := py_getitem validated_data "timeout" in
  let? validation_result := _validate_input username password (as_int timeout) in
  let? st := py_get validation_result "status" VNone in
  if is_str st "success"
  then
    let? jwt_token := py_get validation_result "jwt_token" VNone in
    let user_input :=
      match user_input with
      | VDict entries => VDict (dict_set "jwt_token" jwt_token entries)
      | other => other
      end in
    let unique_id := username in
    let? _ := async_set_unique_id env (py_str unique_id) in
    if has_current_entries env
    then Ok (inl (async_abort "already_configured"))
    else Ok (inl (async_create_entry username user_input))
  else
    let? error_code := py_get validation_result "error" (VStr "unknown_error") in
    Ok (inr [("base", map_error_to_message (py_str error_code))]).

Definition async_step_user (user_input : option pyobj) : FlowResult :=
  match user_input with
  | None => async_show_form "user" []
  | Some user_input =>
      match step_user_body user_input with
      | Ok (inl result) => result
      | Ok (inr errors) => async_show_form "user" errors
      | Raise e =>
          if is_Invalid (exc_cls e)
          then async_show_form "user" [("base", "invalid_input")]
          else async_show_form "user"
                 [("base", "unknown_error: " ++ exc_str e)]
      end
  end.

End WithFlowEnv.

End ConfigFlow.

(* ------------------------------------------------------------------ *)
(** * Entities of the sensor platform ([sensor.py]) *)

Module SensorEntity.

Definition SERVICE_NAME_ELEKTRA : string := "Elektra".
Definition SERVICE_NAME_USER : string := "Gebruiker".

(** [LianderSensorEntityDescription], with the fields the methods below
    read.  A field that is [None] in the source is [None] here. *)
Record LianderSensorEntityDescription : Type := Description {
  key : string;
  name : option string;
  translation_key : option string;
  icon : option string;
  icon_inactive : option string;
  service_name : option string
}.

Definition SENSOR_DESCRIPTIONS : list LianderSensorEntityDescription :=
  [ Description "address" (Some "Address") (Some "address")
      (Some "mdi:home") None (Some SERVICE_NAME_USER);
    Description "electricity_ean" (Some "Electricity EAN")
      (Some "electricity_ean") (Some "mdi:flash-outline") None
      (Some SERVICE_NAME_ELEKTRA);
    Description "connection_capacity" (Some "Connection Capacity")
      (Some "connection_capacity") (Some "mdi:power-socket") None
      (Some SERVICE_NAME_ELEKTRA);
    Description "status" (Some "Status") (Some "status")
      (Some "mdi:check-circle") (Some "mdi:cancel")
      (Some SERVICE_NAME_ELEKTRA);
    Description "network_costs" (Some "Network Costs")
      (Some "network_costs") (Some "mdi:currency-eur") None
      (Some SERVICE_NAME_ELEKTRA);
    Description "maximum_power" (Some "Maximum Power")
      (Some "maximum_power") (Some "mdi:flash-triangle-outline") None
      (Some SERVICE_NAME_ELEKTRA);
    Description "number_of_meters" (Some "Number of Meters")
      (Some "number_of_meters") (Some "mdi:counter") None
      (Some SERVICE_NAME_ELEKTRA);
    Description "meter_number" (Some "Meter Number")
      (Some "meter_number") (Some "mdi:numeric") None
      (Some SERVICE_NAME_ELEKTRA);
    Description "number_of_registers" (Some "Number of Registers")
      (Some "number_of_registers") (Some "mdi:counter") None
      (Some SERVICE_NAME_ELEKTRA);
    Description "number_of_phases" (Some "Number of Phases")
      (Some "number_of_phases") (Some "mdi:trending-up") None
      (Some SERVICE_NAME_ELEKTRA) ].

(** [x or None] on an optional text: the empty text counts as absent. *)
Definition or_none (x : option string) : option string :=
  match x with
  | Some EmptyString => None
  | _ => x
  end.

(** What [LianderSensor.__init__] stores. *)
Record LianderSensor : Type := Sensor {
  entity_description : LianderSensorEntityDescription;
  _attr_unique_id : string;
  _attr_name : string;
  (** [self._attributes.icon] and [self._attributes.icon_inactive] *)
  attributes_icon : option string;
  attributes_icon_inactive : option string
}.

(** [LianderSensor(coordinator, description, entry)], for an entry whose
    [unique_id] is [entry_unique_id] (text or [None]). *)
Definition new_sensor (description : LianderSensorEntityDescription)
  (entry_unique_id : pyobj) : LianderSensor :=
  Sensor description
    (py_str entry_unique_id ++ "." ++ key description)
    (match or_none (name description) with
     | Some n => n
     | None => "Unnamed Sensor"
     end)
    (or_none (icon description))
    (or_none (icon_inactive description)).

(** [x == s] for a text [s]. *)
Definition eq_text (v : pyobj) (s : string) : bool :=
  match v with VStr s' => String.eqb s' s | _ => false end.

(** [LianderSensor.is_inactive], on the coordinator's [data]. *)
Definition is_inactive (s : LianderSensor) (data : pyobj) : outcome bool :=
  let? v := Sensor.native_value (key (entity_description s)) data in
  Ok (negb (eq_text v "In bedrijf" || eq_text v "Active")).

(** [LianderSensor.icon]: [is_inactive] is evaluated only when an
    inactive icon is set (a text that is not empty). *)
Definition sensor_icon (s : LianderSensor) (data : pyobj)
  : outcome (option string) :=
  match or_none (attributes_icon_inactive s) with
  | Some inactive_icon =>
      let? inactive := is_inactive s data in
      if inactive then Ok (Some inactive_icon) else Ok (attributes_icon s)
  | None => Ok (attributes_icon s)
  end.

End SensorEntity.

(* ------------------------------------------------------------------ *)
(** * Entities of the binary sensor platform ([binary_sensor.py]) *)

Module BinaryEntity.

Definition ATTRIBUTION : string := "Data provided by Liander".

(** The keys of [BINARY_SENSOR_DESCRIPTIONS], in order. *)
Definition BINARY_SENSOR_KEYS : list string :=
  [ "contract"; "toestemmingVoorUitlezen"; "slimmeMeter";
    "geschiktVoorTerugleveren"; "geschiktVoorDubbeltarief"; "levertTerug" ].

(** [self._attr_unique_id] of [LianderBinarySensor.__init__]. *)
Definition binary_unique_id (entry_unique_id : pyobj) (key : string) : string :=
  py_str entry_unique_id ++ "_" ++ key.

(** The comprehension
    [[elektra for account in data for elektra in
      account.get('aansluitingen', {}).get('elektra', [])]]. *)
Fixpoint collect_elektra (accounts : list pyobj) : outcome (list pyobj) :=
  match accounts with
  | [] => Ok []
  | account :: rest =>
      let? aansluitingen := py_get account "aansluitingen" (VDict []) in
      let? elektra_connections := py_get aansluitingen "elektra" (VList []) in
      let? items := py_iter elektra_connections in
      let? more := collect_elektra rest in
      Ok (items ++ more)%list
  end.

(** [LianderBinarySensor.extra_state_attributes], on the coordinator's
    [data]. *)
Definition extra_state_attributes (data : pyobj) : outcome pyobj :=
  let? elektra :=
    (if truthy data
     then let? accounts := py_iter data in collect_elektra accounts
     else Ok []) in
  Ok (VDict [("attribution", VStr ATTRIBUTION); ("Elektra", VList elektra)]).

End BinaryEntity.

(* ------------------------------------------------------------------ *)
(** * Setting up and unloading an entry ([__init__.py]) *)

Module Integration.

Import Coordinator.

Definition DOMAIN : string := "mijn_liander".

(** A config entry as the code reads it: its ids and the two credentials
    of [entry.data], each absent or a text. *)
Record ConfigEntry : Type := Entry {
  entry_id : string;
  unique_id : pyobj;
  data_username : option string;
  data_password : option string
}.

(** A dict with text keys: lookup, [d[k] = v] and [d.pop(k)]. *)
Section Dict.

Context {V : Type}.

Fixpoint lookup (k : string) (d : list (string * V)) : option V :=
  match d with
  | [] => None
  | (k', v) :: rest => if String.eqb k k' then Some v else lookup k rest
  end.

Fixpoint store (k : string) (v : V) (d : list (string * V))
  : list (string * V) :=
  match d with
  | [] => [(k, v)]
  | (k', v') :: rest =>
      if String.eqb k k' then (k', v) :: rest else (k', v') :: store k v rest
  end.

Fixpoint remove (k : string) (d : list (string * V)) : list (string * V) :=
  match d with
  | [] => []
  | (k', v') :: rest =>
      if String.eqb k k' then remove k rest else (k', v') :: remove k rest
  end.

End Dict.

(** The part of [hass] the integration touches: [hass.data[DOMAIN]]
    ([None] while [hass.data] has no such key), the entries forwarded to
    the platforms, and the module's log. *)
Record hass : Type := Hass {
  domain_data : option (list (string * coordinator));
  forwarded : list string;
  hass_logged : list log_record
}.

(** What the framework does when asked. *)
Record SetupEnv : Type := {
  (** [await coordinator.async_config_entry_first_refresh()]: the
      coordinator after its first update, or the exception raised *)
  first_refresh : coordinator -> outcome coordinator;
  (** [await hass.config_entries.async_forward_entry_setups(entry,
      PLATFORMS)] *)
  forward_entry_setups : string -> outcome unit;
  (** [await hass.config_entries.async_unload_platforms(entry,
      PLATFORMS)] *)
  unload_platforms : string -> outcome bool
}.

Definition note (lvl : log_level) (msg : string) (h : hass) : hass :=
  Hass (domain_data h) (forwarded h) (hass_logged h ++ [(lvl, msg)]).

(** [LianderDataUpdateCoordinator(hass, entry)]: the credentials are read
    with [config_entry.data[...]]. *)
Definition new_coordinator (entry : ConfigEntry) : outcome coordinator :=
  match data_username entry with
  | None => Raise (Exn KeyError "'username'")
  | Some username =>
      match data_password entry with
      | None => Raise (Exn KeyError "'password'")
      | Some password => Ok (init username password)
      end
  end.

Section WithSetupEnv.

Variable env : SetupEnv.

(** [async_setup_coordinator] *)
Definition async_setup_coordinator (entry : ConfigEntry) (h : hass)
  : outcome coordinator * hass :=
  match new_coordinator entry with
  | Raise e => (Raise e, h)
  | Ok coordinator =>
      match first_refresh env coordinator with
      | Ok refreshed => (Ok refreshed, h)
      | Raise e => (Raise e, note ERROR "Failed to fetch initial data: %s" h)
      end
  end.

(** [async_setup_entry] of the integration *)
Definition async_setup_entry (entry : ConfigEntry) (h : hass)
  : outcome bool * hass :=
  let h := note DEBUG "Setting up Liander component for entry: %s" h in
  match async_setup_coordinator entry h with
  | (Raise e, h) => (Ok false, note ERROR "Error setting up coordinator: %s" h)
  | (Ok coordinator, h) =>
      let entries := match domain_data h with Some d => d | None => [] end in
      let h := Hass (Some (store (entry_id entry) coordinator entries))
                    (forwarded h) (hass_logged h) in
      match forward_entry_setups env (entry_id entry) with
      | Raise e => (Raise e, h)
      | Ok _ =>
          (Ok true,
           Hass (domain_data h) (forwarded h ++ [entry_id entry])
                (hass_logged h))
      end
  end.

(** [async_unload_entry] *)
Definition async_unload_entry (entry : ConfigEntry) (h : hass)
  : outcome bool * hass :=
  let h := note DEBUG "Unloading entry: %s" h in
  match domain_data h with
  | None => (Raise (Exn KeyError "'mijn_liander'"), h)
  | Some entries =>
      let entries :=
        match lookup (entry_id entry) entries with
        | Some _ => remove (entry_id entry) entries
        | None => entries
        end in
      let h := Hass (Some entries) (forwarded h) (hass_logged h) in
      match unload_platforms env (entry_id entry) with
      | Raise e => (Raise e, h)
      | Ok unload_ok => (Ok unload_ok, h)
      end
  end.

End WithSetupEnv.

(** [async_setup_entry] of the sensor platform: the sensors it hands to
    [async_add_entities], none when the coordinator is not found. *)
Definition sensor_async_setup_entry (entry : ConfigEntry) (h : hass)
  : outcome (list SensorEntity.LianderSensor) * hass :=
  match domain_data h with
  | None => (Raise (Exn KeyError "'mijn_liander'"), h)
  | Some entries =>
      match lookup (entry_id entry) entries with
      | None =>
          (Ok [], note ERROR "Coordinator not found for entry_id: %s" h)
      | Some _ =>
          (Ok (map (fun description =>
                      SensorEntity.new_sensor description (unique_id entry))
                   SensorEntity.SENSOR_DESCRIPTIONS),
           h)
      end
  end.

End Integration.

(* ------------------------------------------------------------------ *)
(** * Sample environments and inputs

    Concrete worlds on which the theorems below are exercised. *)

Module Samples.

Import Coordinator.

(** 2023-11-14T22:13:20Z, in microseconds. *)
Definition t0 : datetime := 1700000000 * 1000000.

Definition t0_reading : clock_reading t0 :=
  conj (proj1 (Z.leb_le (DATETIME_MIN + timedelta_hours 1) t0) eq_refl)
       (proj1 (Z.leb_le t0 (DATETIME_MAX - timedelta_hours 1)) eq_refl).

Definition sample_jwt : pyobj := VStr "header.payload.signature".

Definition login_ok : response :=
  Response 200 (Ok (VDict [("jwt", sample_jwt)])).

Definition connections_ok : response := Response 200 (Ok example_data).

Definition answer (login data : outcome response) (r : request)
  : outcome response :=
  match req_method r with POST => login | GET => data end.

(** The server issues a token that expires one hour after [t0]. *)
Definition env_hour : Env :=
  {| now_at := fun _ => t0;
     now_in_range := fun _ => t0_reading;
     respond := fun _ => answer (Ok login_ok) (Ok connections_ok);
     jwt_decode := fun _ => Ok (VDict [("exp", VInt 1700003600)]) |}.

(** The server issues a token that carries no expiry claim. *)
Definition env_no_exp : Env :=
  {| now_at := fun _ => t0;
     now_in_range := fun _ => t0_reading;
     respond := fun _ => answer (Ok login_ok) (Ok connections_ok);
     jwt_decode := fun _ => Ok (VDict [("sub", VStr "user")]) |}.



(** The server issues a token whose expiry claim counts milliseconds. *)
Definition env_millis : Env :=
  {| now_at := fun _ => t0;
     now_in_range := fun _ => t0_reading;
     respond := fun _ => answer (Ok login_ok) (Ok connections_ok);
     jwt_decode := fun _ => Ok (VDict [("exp", VInt 1700003600000)]) |}.

(** The login response has no [jwt] field. *)
Definition env_no_jwt : Env :=
  {| now_at := fun _ => t0;
     now_in_range := fun _ => t0_reading;
     respond := fun _ =>
       answer (Ok (Response 200 (Ok (VDict [("message", VStr "welcome")]))))
              (Ok connections_ok);
     jwt_decode := fun _ => Raise (Exn DecodeError "Not enough segments") |}.

(** The connection is refused. *)
Definition env_offline : Env :=
  {| now_at := fun _ => t0;
     now_in_range := fun _ => t0_reading;
     respond := fun _ _ => Raise (Exn ClientError "Cannot connect to host");
     jwt_decode := fun _ => Raise (Exn DecodeError "Not enough segments") |}.

(** A coordinator that holds a token expiring at [expiry]. *)
Definition holding (expiry : datetime) : coordinator :=
  Coord "user" "secret" sample_jwt (Some expiry) 0 [] [].



(** A flow whose login succeeds, with no entry configured yet; text is
    never read as a number. *)
Definition flow_env : ConfigFlow.FlowEnv :=
  {| ConfigFlow.int_of_text := fun _ => None;
     ConfigFlow.post := fun _ _ _ => Ok login_ok;
     ConfigFlow.async_set_unique_id := fun _ => Ok tt;
     ConfigFlow.has_current_entries := false |}.

Definition form_input (timeout : Z) : list (string * pyobj) :=
  [("username", VStr "user"); ("password", VStr "secret");
   ("timeout", VInt timeout)].



End Samples.

(* ------------------------------------------------------------------ *)
(** * Further notions used in the statements *)

Module Notions.

Import Coordinator.

(** The [jwt] value [_async_renew_token] reads from the login response:
    there is one when the session answers, the status is below 400, the
    body reads as JSON and has the method [get]. *)
Definition login_jwt (env : Env) (c : coordinator) : option pyobj :=
  match respond env (List.length (sent c)) (login_request c) with
  | Ok r =>
      if 400 <=? status r then None
      else match json r with
           | Ok body =>
               match py_get body "jwt" VNone with
               | Ok jwt => Some jwt
               | Raise _ => None
               end
           | Raise _ => None
           end
  | Raise _ => None
  end.

(** An account record that has no electricity connection to read. *)
Definition no_connection (account : pyobj) : bool :=
  match account with
  | VDict entries =>
      match assoc "aansluitingen" entries with
      | None => true
      | Some (VDict connections) =>
          match assoc "elektra" connections with
          | None => true
          | Some v => negb (truthy v)
          end
      | Some _ => false
      end
  | _ => false
  end.

(** The message the user step shows for an HTTP error status. *)
Definition status_message (status : Z) : string :=
  ConfigFlow.map_error_to_message
    (ConfigFlow._map_http_error (Exn (ClientResponseError status) "")).
(** The coordinators stored in [hass.data[DOMAIN]], none while the key
    is missing. *)
Definition entries_of (h : Integration.hass) : list (string * Coordinator.coordinator) :=
  match Integration.domain_data h with Some d => d | None => [] end.

End Notions.

(* ------------------------------------------------------------------ *)
(** * Further sample inputs *)

Module MoreSamples.

Import Coordinator Samples.

(** The [exp] claim of the tokens [env_hour] issues. *)
Definition exp_hour : Z := 1700003600.

(** The coordinator after a first [get_valid_token] against [env_hour]. *)
Definition after_login : coordinator :=
  Eval vm_compute in snd (get_valid_token env_hour (init "user" "secret")).

(** An account with one connection under contract, followed in its list
    by an item that is no connection. *)
Definition contract_fields : list (string * pyobj) :=
  [("contract", VBool true)].

Definition connected_entries : list (string * pyobj) :=
  [("aansluitingen",
    VDict [("elektra", VList [VDict contract_fields; VNone])])].

(** An account whose list of connections is [null]. *)
Definition null_elektra_entries : list (string * pyobj) :=
  [("aansluitingen", VDict [("elektra", VNone)])].

(** A flow whose login is answered with status 401. *)
Definition flow_env_401 : ConfigFlow.FlowEnv :=
  {| ConfigFlow.int_of_text := fun _ => None;
     ConfigFlow.post := fun _ _ _ =>
       Ok (Response 401 (Ok (VDict [("message", VStr "Unauthorized")])));
     ConfigFlow.async_set_unique_id := fun _ => Ok tt;
     ConfigFlow.has_current_entries := false |}.

(** A framework in which the first refresh and the platforms succeed. *)
Definition setup_env : Integration.SetupEnv :=
  {| Integration.first_refresh := fun c => Ok c;
     Integration.forward_entry_setups := fun _ => Ok tt;
     Integration.unload_platforms := fun _ => Ok true |}.

Definition sample_entry : Integration.ConfigEntry :=
  Integration.Entry "entry-1" (VStr "user") (Some "user") (Some "secret").

Definition empty_hass : Integration.hass := Integration.Hass None [] [].

Definition after_setup : Integration.hass :=
  Eval vm_compute in
    snd (Integration.async_setup_entry setup_env sample_entry empty_hass).

End MoreSamples.

(* ------------------------------------------------------------------ *)
(** * Properties of the coordinator *)

Module CoordinatorFacts.

Import Coordinator.
Local Open Scope coord_scope.

(** Unfolds the state-passing combinators and computes the fields of
    records that are known. *)
Ltac fields :=
  cbn [fst snd _username _password _token _token_expiry ticks sent logged
       set_token set_token_expiry exc_cls exc_str] in *.

Ltac run :=
  cbv beta iota zeta delta
    [bind ret raise reraise try_except lift get_self modify log when
     datetime_now session_request noted];
  fields.

(** The term a nest of [match] and [if] waits for. *)
Ltac head_scrutinee t :=
  lazymatch t with
  | match ?x with _ => _ end => head_scrutinee x
  | if ?x then _ else _ => head_scrutinee x
  | (match ?x with _ => _ end) _ => head_scrutinee x
  | (if ?x then _ else _) _ => head_scrutinee x
  | _ => t
  end.

(** Splits on the test or call result the goal is stuck on. *)
Ltac step :=
  match goal with
  | |- context [match ?x with _ => _ end] =>
      let h := head_scrutinee x in destruct h eqn:?
  end; fields.

(** A status below 400 is neither 401 nor 503: the two tests after
    [raise_for_status] never fire. *)
Ltac status_clash :=
  match goal with
  | H1 : (400 <=? ?s) = false, H2 : (?s =? _) = true |- _ =>
      exfalso; apply Z.leb_gt in H1; apply Z.eqb_eq in H2; lia
  end.

(** ** The calendar *)

Lemma sub_ok (d : datetime) (delta : timedelta) :
  DATETIME_MIN <= d - delta <= DATETIME_MAX ->
  datetime_sub d delta = Ok (d - delta).
Proof.
  intros [H1 H2]. unfold datetime_sub, in_calendar.
  apply Z.leb_le in H1, H2. rewrite H1, H2. reflexivity.
Qed.

Lemma sub_overflow (d : datetime) (delta : timedelta) :
  d - delta < DATETIME_MIN \/ DATETIME_MAX < d - delta ->
  datetime_sub d delta = Raise (Exn OverflowError "date value out of range").
Proof.
  intros H. unfold datetime_sub, in_calendar.
  destruct (Z.leb_spec DATETIME_MIN (d - delta));
    destruct (Z.leb_spec (d - delta) DATETIME_MAX);
    cbn [andb]; try reflexivity; lia.
Qed.

Lemma add_in_calendar (d : datetime) (delta : timedelta) (t : datetime) :
  datetime_add d delta = Ok t ->
  t = d + delta /\ DATETIME_MIN <= t <= DATETIME_MAX.
Proof.
  unfold datetime_add, in_calendar.
  destruct (Z.leb_spec DATETIME_MIN (d + delta));
    destruct (Z.leb_spec (d + delta) DATETIME_MAX);
    cbn [andb]; try discriminate.
  intros E; inversion E. lia.
Qed.

(** One hour after a reading of the clock is in the calendar. *)
Lemma add_hour (env : Env) (k : nat) :
  datetime_add (now_at env k) (timedelta_hours 1)
  = Ok (now_at env k + timedelta_hours 1).
Proof.
  destruct (now_in_range env k) as [H1 H2].
  unfold datetime_add, in_calendar.
  destruct (Z.leb_spec DATETIME_MIN (now_at env k + timedelta_hours 1));
    destruct (Z.leb_spec (now_at env k + timedelta_hours 1) DATETIME_MAX);
    cbn [andb]; try reflexivity; unfold timedelta_hours in *; lia.
Qed.

Lemma timestamp_parts_micros (v : pyobj) (sec us : Z) :
  timestamp_parts v = Ok (sec, us) -> 0 <= us < 1000000.
Proof.
  unfold timestamp_parts, time_t_overflow.
  destruct v as [ | b | n | f | s | items | entries]; try discriminate.
  - destruct (_ || _); [ discriminate | ]. intros H; inversion H. lia.
  - destruct (_ || _); [ discriminate | ]. intros H; inversion H. lia.
  - destruct (Prim2SF f); try discriminate;
      (destruct (_ || _); [ discriminate | ]; intros H; inversion H;
       apply Z.mod_pos_bound; lia).
Qed.

(** What [datetime.fromtimestamp] returns is in the calendar. *)
Lemma fromtimestamp_in_calendar (v : pyobj) (t : datetime) :
  datetime_fromtimestamp v = Ok t -> DATETIME_MIN <= t <= DATETIME_MAX.
Proof.
  unfold datetime_fromtimestamp.
  destruct (timestamp_parts v) as [[sec us]|] eqn:P; cbn [obind fst snd];
    [ | discriminate ].
  apply timestamp_parts_micros in P. unfold utc_from_parts.
  destruct (_ || _); [ discriminate | ].
  destruct (Z.ltb_spec sec SECONDS_MIN); [ discriminate | ].
  destruct (Z.ltb_spec SECONDS_MAX sec); cbn [orb]; [ discriminate | ].
  intros E; inversion E. unfold DATETIME_MIN, DATETIME_MAX. lia.
Qed.

(** On an integer of seconds in the calendar it returns that instant, and
    it raises on any other integer. *)
Lemma fromtimestamp_int (n : Z) :
  SECONDS_MIN <= n <= SECONDS_MAX ->
  datetime_fromtimestamp (VInt n) = Ok (n * 1000000).
Proof.
  intros [H1 H2].
  unfold datetime_fromtimestamp, timestamp_parts, utc_from_parts.
  unfold SECONDS_MIN, SECONDS_MAX, TIME_T_MIN, TIME_T_MAX, GMTIME_MIN,
    GMTIME_MAX in *.
  destruct (Z.ltb_spec n (-9223372036854775808)); [ lia | ].
  destruct (Z.ltb_spec 9223372036854775807 n); [ lia | ].
  cbn [orb obind fst snd].
  destruct (Z.ltb_spec n (-67768040609740800)); [ lia | ].
  destruct (Z.ltb_spec 67768036191676799 n); [ lia | ].
  destruct (Z.ltb_spec n (-62135596800)); [ lia | ].
  destruct (Z.ltb_spec 253402300799 n); [ lia | ].
  cbn [orb]. f_equal. lia.
Qed.

Lemma fromtimestamp_int_overflow (n : Z) :
  n < SECONDS_MIN \/ SECONDS_MAX < n ->
  exists e, datetime_fromtimestamp (VInt n) = Raise e.
Proof.
  intros H.
  destruct (datetime_fromtimestamp (VInt n)) as [t|e] eqn:F;
    [ exfalso | exists e; reflexivity ].
  unfold datetime_fromtimestamp, timestamp_parts, utc_from_parts in F.
  destruct (_ || _); [ discriminate | ]. cbn [obind fst snd] in F.
  destruct (_ || _); [ discriminate | ].
  destruct (Z.ltb_spec n SECONDS_MIN); [ discriminate | ].
  destruct (Z.ltb_spec SECONDS_MAX n); [ discriminate | ]. lia.
Qed.

(** ** One run of each method *)

(** Whatever [_async_renew_token] raises is an [UpdateFailed]. *)
Lemma renew_raises_UpdateFailed (env : Env) (c : coordinator) (e : exn) :
  fst (_async_renew_token env c) = Raise e -> exc_cls e = UpdateFailed.
Proof.
  destruct c as [u p tok ex tk sn lg].
  unfold _async_renew_token, raise_for_status. run.
  repeat step; intros H; inversion H; reflexivity.
Qed.

(** One run of [_async_renew_token]: what it leaves behind. *)
Lemma renew_run (env : Env) (c c' : coordinator) (o : outcome unit) :
  _async_renew_token env c = (o, c') ->
  sent c' = (sent c ++ [login_request c])%list
  /\ _username c' = _username c
  /\ _password c' = _password c
  /\ match o with
     | Raise e => exc_cls e = UpdateFailed
     | Ok _ => truthy (_token c') = true
               /\ exists expiry,
                    _token_expiry c' = Some expiry
                    /\ DATETIME_MIN <= expiry <= DATETIME_MAX
     end.
Proof.
  destruct c as [u p tok ex tk sn lg].
  unfold _async_renew_token, raise_for_status, login_request. run.
  repeat step; intros H; inversion H; subst; fields;
    (split; [ reflexivity | split; [ reflexivity | split; [ reflexivity | ] ] ]);
    try reflexivity;
    (split; [ now apply negb_false_iff | ]);
    eexists; (split; [ reflexivity | ]);
    first [ eapply fromtimestamp_in_calendar; eassumption
          | eapply add_in_calendar; eassumption ].
Qed.

(** With no expiry stored the check answers [True] and changes nothing. *)
Lemma expired_none (env : Env) (c : coordinator) :
  _token_expiry c = None -> is_token_expired env c = (Ok true, c).
Proof.
  destruct c as [u p tok ex tk sn lg]. cbn [_token_expiry]. intros ->.
  reflexivity.
Qed.

(** With an expiry stored, the check reads the clock; it answers when
    both subtractions stay in the calendar, and raises when one leaves
    it, before any warning when it is the first. *)
Lemma expired_some (env : Env) (c : coordinator) (expiry : datetime) :
  _token_expiry c = Some expiry ->
  let now := now_at env (ticks c) in
  let read :=
    Coord (_username c) (_password c) (_token c) (_token_expiry c)
      (S (ticks c)) (sent c) in
  let warning :=
    (WARNING, "Token is about to expire in less than 30 minutes.") in
  let overflow := Exn OverflowError "date value out of range" in
  (checkable expiry ->
   is_token_expired env c
   = (Ok (expiry - timedelta_minutes 5 <=? now),
      read (if expiry - timedelta_minutes 30 <=? now
            then logged c ++ [warning] else logged c)%list))
  /\ (expiry < DATETIME_MIN + timedelta_minutes 30 ->
      is_token_expired env c = (Raise overflow, read (logged c)))
  /\ (DATETIME_MAX + timedelta_minutes 5 < expiry ->
      exists lg, is_token_expired env c = (Raise overflow, read lg)).
Proof.
  destruct c as [u p tok ex tk sn lg]. cbn [_token_expiry]. intros ->.
  cbv zeta. fields. unfold is_token_expired, checkable. run.
  split; [ | split ].
  - intros [H1 H2].
    rewrite !sub_ok by (unfold timedelta_minutes in *; lia).
    destruct (expiry - timedelta_minutes 30 <=? now_at env tk); reflexivity.
  - intros H.
    rewrite sub_overflow by (unfold timedelta_minutes in *; lia). reflexivity.
  - intros H.
    destruct (datetime_sub expiry (timedelta_minutes 30)) as [t|e] eqn:S30.
    + rewrite (sub_overflow expiry (timedelta_minutes 5))
        by (unfold timedelta_minutes in *; lia).
      destruct (t <=? now_at env tk); eexists; reflexivity.
    + destruct (Z.lt_ge_cases (DATETIME_MAX) (expiry - timedelta_minutes 30))
        as [Hhi|Hlo].
      * rewrite sub_overflow in S30 by (right; exact Hhi).
        inversion S30. eexists. reflexivity.
      * rewrite sub_ok in S30; [ discriminate | ].
        unfold timedelta_minutes in *. unfold DATETIME_MIN, DATETIME_MAX,
          SECONDS_MIN, SECONDS_MAX in *. lia.
Qed.

Lemma checkable_dec (expiry : datetime) :
  checkable expiry
  \/ expiry < DATETIME_MIN + timedelta_minutes 30
  \/ DATETIME_MAX + timedelta_minutes 5 < expiry.
Proof. unfold checkable. lia. Qed.

(** What the check leaves as it is, whatever its outcome. *)
Lemma expired_frame (env : Env) (c c' : coordinator) (o : outcome bool) :
  is_token_expired env c = (o, c') ->
  sent c' = sent c /\ _token c' = _token c
  /\ _token_expiry c' = _token_expiry c
  /\ _username c' = _username c /\ _password c' = _password c.
Proof.
  destruct (_token_expiry c) as [expiry|] eqn:He.
  - destruct (expired_some env c expiry He) as (Hok & Hlo & Hhi).
    destruct (checkable_dec expiry) as [H|[H|H]].
    + rewrite (Hok H). intros E; inversion E. repeat split. exact He.
    + rewrite (Hlo H). intros E; inversion E. repeat split. exact He.
    + destruct (Hhi H) as (lg & ->). intros E; inversion E. repeat split.
      exact He.
  - rewrite (expired_none env c He). intros E; inversion E; subst.
    repeat split. exact He.
Qed.

(** An answer of the check. *)
Lemma expired_ok (env : Env) (c c' : coordinator) (b : bool) :
  is_token_expired env c = (Ok b, c') ->
  match _token_expiry c with
  | None => b = true /\ c' = c
  | Some expiry =>
      checkable expiry
      /\ b = (expiry - timedelta_minutes 5 <=? now_at env (ticks c))
      /\ ticks c' = S (ticks c)
  end.
Proof.
  destruct (_token_expiry c) as [expiry|] eqn:He.
  - destruct (expired_some env c expiry He) as (Hok & Hlo & Hhi).
    destruct (checkable_dec expiry) as [H|[H|H]].
    + rewrite (Hok H). intros E; inversion E.
      split; [ exact H | split; reflexivity ].
    + rewrite (Hlo H). discriminate.
    + destruct (Hhi H) as (lg & ->). discriminate.
  - rewrite (expired_none env c He). intros E; inversion E. split; reflexivity.
Qed.

(** An exception of the check. *)
Lemma expired_raise (env : Env) (c c' : coordinator) (e : exn) :
  is_token_expired env c = (Raise e, c') -> check_overflow c' e.
Proof.
  intros E. pose proof (expired_frame _ _ _ _ E) as (_ & _ & Hx & _).
  unfold check_overflow. rewrite Hx.
  destruct (_token_expiry c) as [expiry|] eqn:He.
  - destruct (expired_some env c expiry He) as (Hok & Hlo & Hhi).
    destruct (checkable_dec expiry) as [H|[H|H]].
    + rewrite (Hok H) in E. discriminate.
    + rewrite (Hlo H) in E. inversion E. split; [ reflexivity | ].
      exists expiry. split; [ reflexivity | ]. left. exact H.
    + destruct (Hhi H) as (lg & K). rewrite K in E. inversion E.
      split; [ reflexivity | ]. exists expiry. split; [ reflexivity | ].
      right. exact H.
  - rewrite (expired_none env c He) in E. discriminate.
Qed.

Lemma get_valid_token_unfold (env : Env) :
  get_valid_token env =
  (self <- get_self ;;
   when (negb (truthy (_token self)))
     (log DEBUG "Token is not available, re-authenticating..." ;;
      _async_renew_token env) ;;
   check_and_return env).
Proof. reflexivity. Qed.

Lemma truthy_not_none (v : pyobj) : truthy v = true -> is_none v = false.
Proof. destruct v; cbn; congruence. Qed.

(** The login request depends on the credentials only. *)
Lemma login_request_same (c c' : coordinator) :
  _username c' = _username c -> _password c' = _password c ->
  login_request c' = login_request c.
Proof. unfold login_request. intros -> ->. reflexivity. Qed.

(** One run of [get_valid_token] from its expiry check on. *)
Lemma check_and_return_run (env : Env) (c c' : coordinator) (o : outcome pyobj) :
  check_and_return env c = (o, c') ->
  (exists k, (k <= 1)%nat
     /\ sent c' = (sent c ++ repeat (login_request c) k)%list)
  /\ _username c' = _username c /\ _password c' = _password c
  /\ match o with
     | Raise e => exc_cls e = UpdateFailed \/ check_overflow c' e
     | Ok tok =>
         tok = _token c' /\ is_none tok = false
         /\ (truthy (_token c) = true -> truthy tok = true)
         /\ (exists expiry,
               _token_expiry c' = Some expiry
               /\ expiry <= DATETIME_MAX + timedelta_minutes 5)
         /\ checked_or_renewed env c c'
     end.
Proof.
  unfold check_and_return. cbv beta delta [bind].
  destruct (is_token_expired env c) as [[b|e] c2] eqn:E.
  - pose proof (expired_frame _ _ _ _ E) as (Hs & Ht & Hx & Hu & Hp).
    pose proof (expired_ok _ _ _ _ E) as Hb.
    run. destruct b.
    + destruct (_async_renew_token env _) as [o3 c3] eqn:R.
      pose proof (renew_run _ _ _ _ R) as (Rs & Ru & Rp & Ro). fields.
      rewrite (login_request_same c _) in Rs by (cbn; assumption).
      rewrite Hs in Rs. rewrite Hu in Ru. rewrite Hp in Rp.
      destruct o3 as [[]|e3].
      * destruct Ro as (Rt & expiry & Rx & Rlo & Rhi).
        rewrite (truthy_not_none _ Rt).
        intros H; inversion H; subst o c'.
        split; [ exists 1%nat; split; [ lia | exact Rs ] | ].
        split; [ exact Ru | split; [ exact Rp | ] ].
        split; [ reflexivity | ].
        split; [ exact (truthy_not_none _ Rt) | ].
        split; [ intros _; exact Rt | ].
        split; [ exists expiry; split;
                 [ exact Rx | unfold timedelta_minutes; lia ] | ].
        right. exists c2. split; [ exact E | exact R ].
      * intros H; inversion H; subst o c'.
        split; [ exists 1%nat; split; [ lia | exact Rs ] | ].
        split; [ exact Ru | split; [ exact Rp | ] ].
        left. exact Ro.
    + destruct (_token_expiry c) as [expiry|] eqn:He;
        [ | destruct Hb; discriminate ].
      destruct Hb as (Hc & _ & _).
      destruct (is_none (_token c2)) eqn:Hn;
        intros H; inversion H; subst o c';
        (split; [ exists 0%nat; split;
                  [ lia | cbn [repeat]; rewrite app_nil_r; exact Hs ] | ]);
        (split; [ exact Hu | split; [ exact Hp | ] ]).
      * left. reflexivity.
      * split; [ reflexivity | ]. split; [ exact Hn | ].
        split; [ rewrite Ht; trivial | ].
        split; [ exists expiry; split;
                 [ rewrite Hx; reflexivity | apply Hc ] | ].
        left. exact E.
  - pose proof (expired_frame _ _ _ _ E) as (Hs & Ht & Hx & Hu & Hp).
    intros H; inversion H; subst o c'.
    split; [ exists 0%nat; split;
             [ lia | cbn [repeat]; rewrite app_nil_r; exact Hs ] | ].
    split; [ exact Hu | split; [ exact Hp | ] ].
    right. exact (expired_raise _ _ _ _ E).
Qed.

(** One run of [get_valid_token]. *)
Lemma get_valid_token_run (env : Env) (c c' : coordinator) (o : outcome pyobj) :
  get_valid_token env c = (o, c') -> valid_return env c c' o.
Proof.
  rewrite get_valid_token_unfold. run. unfold valid_return.
  destruct (truthy (_token c)) eqn:Htok; cbn [negb].
  - intros H.
    destruct (check_and_return_run _ _ _ _ H) as ((k & Hk & Hs) & Hu & Hp & Ho).
    split; [ exists k; split; [ lia | exact Hs ] | ].
    split; [ exact Hu | split; [ exact Hp | ] ].
    destruct o as [tok|e]; [ | exact Ho ].
    destruct Ho as (Ho & _ & Ht & Hx & Hc).
    split; [ exact Ho | split; [ exact (Ht Htok) | split; [ exact Hx | ] ] ].
    exists c. split; [ left; split; [ exact Htok | reflexivity ] | exact Hc ].
  - destruct (_async_renew_token env _) as [o1 c1] eqn:R.
    pose proof (renew_run _ _ _ _ R) as (Rs & Ru & Rp & Ro). fields.
    rewrite (login_request_same c _) in Rs by reflexivity.
    destruct o1 as [[]|e1].
    + destruct Ro as (Rt & _). intros H.
      destruct (check_and_return_run _ _ _ _ H)
        as ((k & Hk & Hs) & Hu & Hp & Ho).
      split; [ exists (S k); split; [ lia | ] | ].
      { rewrite Hs, Rs, (login_request_same c c1 Ru Rp), <- app_assoc.
        reflexivity. }
      split; [ congruence | split; [ congruence | ] ].
      destruct o as [tok|e]; [ | exact Ho ].
      destruct Ho as (Ho & _ & Ht & Hx & Hc).
      split; [ exact Ho | split; [ exact (Ht Rt) | split; [ exact Hx | ] ] ].
      exists c1. split; [ right; split; [ exact Htok | exact R ] | exact Hc ].
    + intros H; inversion H; subst o c'.
      split; [ exists 1%nat; split; [ lia | exact Rs ] | ].
      split; [ exact Ru | split; [ exact Rp | ] ].
      left. exact Ro.
Qed.



(** What [_async_update_data] does once [get_valid_token] has returned:
    one more request, the GET with the token; the result is the payload of
    a good response, or [UpdateFailed]. *)
Lemma update_after_token (env : Env) (c c1 : coordinator) (tok : pyobj) :
  get_valid_token env c = (Ok tok, c1) ->
  let result := fst (_async_update_data env c) in
  let c2 := snd (_async_update_data env c) in
  let fails := exists msg, result = Raise (Exn UpdateFailed msg) in
  sent c2 = (sent c1 ++ [data_request tok])%list
  /\ _token c2 = _token c1 /\ _token_expiry c2 = _token_expiry c1
  /\ (forall e, result = Raise e -> exc_cls e = UpdateFailed)
  /\ match respond env (List.length (sent c1)) (data_request tok) with
     | Ok r =>
         if 400 <=? status r then fails
         else match json r with
              | Ok payload => result = Ok payload
              | Raise _ => fails
              end
     | Raise _ => fails
     end.
Proof.
  intros G. cbv zeta. unfold _async_update_data. cbv beta delta [bind].
  rewrite G. destruct c1 as [u p tk ex n sn lg].
  unfold raise_for_status, data_request. run.
  repeat step; try status_clash;
    (split; [ reflexivity | split; [ reflexivity | split; [ reflexivity | ] ] ]);
    (split; [ intros e' K; inversion K; reflexivity | ]);
    first [ reflexivity | eexists; reflexivity ].
Qed.

(** When [get_valid_token] raises, so does the update, and it sends
    nothing more. *)
Lemma update_without_token (env : Env) (c c1 : coordinator) (e : exn) :
  get_valid_token env c = (Raise e, c1) ->
  _async_update_data env c = (Raise e, c1).
Proof.
  intros G. unfold _async_update_data. cbv beta delta [bind]. rewrite G.
  reflexivity.
Qed.



(** C9.  With no expiry stored, [is_token_expired] returns [True] (and
    leaves the coordinator as it is), and [get_valid_token] then sends a
    login request: the renewal is forced. *)
Theorem no_expiry_is_expired (env : Env) (c : coordinator) :
  _token_expiry c = None ->
  is_token_expired env c = (Ok true, c)
  /\ exists more,
       sent (snd (get_valid_token env c))
       = (sent c ++ login_request c :: more)%list.
Proof.
  intros He. pose proof (expired_none env c He) as E.
  split; [ exact E | ].
  rewrite get_valid_token_unfold. run.
  destruct (truthy (_token c)) eqn:Htok; cbn [negb].
  - unfold check_and_return. cbv beta delta [bind]. rewrite E. run.
    destruct (_async_renew_token env _) as [o3 c3] eqn:R.
    pose proof (renew_run _ _ _ _ R) as (Rs & _). fields.
    exists []. destruct o3 as [[]|e]; [ destruct (is_none (_token c3)) | ];
      exact Rs.
  - destruct (_async_renew_token env _) as [o1 c1] eqn:R.
    pose proof (renew_run _ _ _ _ R) as (Rs & Ru & Rp & _). fields.
    destruct o1 as [[]|e].
    + destruct (check_and_return env c1) as [o c'] eqn:K.
      destruct (check_and_return_run _ _ _ _ K) as ((k & _ & Hs) & _).
      exists (repeat (login_request c1) k). cbn [snd].
      rewrite Hs, Rs, <- app_assoc. reflexivity.
    + exists []. exact Rs.
Qed.

(** C4.  With the clock in the window from thirty to five minutes before
    the stored expiry, [is_token_expired] logs the warning and returns
    [False]; [get_valid_token] on a coordinator that holds a token then
    returns that token and sends no request: nothing is renewed. *)
Theorem expiring_token_warns_and_stays_usable
  (env : Env) (c : coordinator) (expiry : datetime) :
  _token_expiry c = Some expiry ->
  expiry - timedelta_minutes 30 <= now_at env (ticks c)
    < expiry - timedelta_minutes 5 ->
  (exists c',
     is_token_expired env c = (Ok false, c')
     /\ logged c' = (logged c ++
          [(WARNING, "Token is about to expire in less than 30 minutes.")])%list
     /\ sent c' = sent c /\ _token c' = _token c
     /\ _token_expiry c' = Some expiry)
  /\ (truthy (_token c) = true ->
      exists c',
        get_valid_token env c = (Ok (_token c), c')
        /\ sent c' = sent c /\ _token c' = _token c
        /\ _token_expiry c' = Some expiry).
Proof.
  intros He [Hlo Hhi].
  assert (Hc : checkable expiry).
  { destruct (now_in_range env (ticks c)) as [N1 N2].
    unfold checkable, timedelta_minutes, timedelta_hours in *. lia. }
  destruct (expired_some env c expiry He) as (Hok & _).
  specialize (Hok Hc).
  apply Z.leb_le in Hlo. apply Z.leb_gt in Hhi. rewrite Hlo, Hhi in Hok.
  split.
  - eexists. split; [ exact Hok | ]. repeat split. exact He.
  - intros Ht. eexists. rewrite get_valid_token_unfold. run.
    rewrite Ht. cbn [negb]. unfold check_and_return. cbv beta delta [bind].
    rewrite Hok. run. rewrite (truthy_not_none _ Ht).
    split; [ reflexivity | ]. repeat split. exact He.
Qed.

(** C2.  Every failure of a token renewal surfaces as [UpdateFailed]:
    whatever [_async_renew_token] raises has that class, and each failure
    cause makes it raise: an exception of the session (connection error,
    timeout, anything else), an HTTP error status, a body that cannot be
    read as JSON, a login response without a usable [jwt] field, and any
    exception of [jwt.decode]. *)
Theorem renew_token_failure_is_UpdateFailed (env : Env) (c : coordinator) :
  let result := fst (_async_renew_token env c) in
  let reply := respond env (List.length (sent c)) (login_request c) in
  let fails := exists msg, result = Raise (Exn UpdateFailed msg) in
  (forall e, result = Raise e -> exc_cls e = UpdateFailed)
  /\ (forall e, reply = Raise e -> fails)
  /\ (forall r, reply = Ok r -> 400 <= status r -> fails)
  /\ (forall r e, reply = Ok r -> json r = Raise e -> fails)
  /\ (forall r body, reply = Ok r -> json r = Ok body ->
       (forall jwt, py_get body "jwt" VNone = Ok jwt -> truthy jwt = false) ->
       fails)
  /\ (forall r body jwt e, reply = Ok r -> json r = Ok body ->
       py_get body "jwt" VNone = Ok jwt ->
       jwt_decode env jwt = Raise e -> fails).
Proof.
  cbv zeta. split; [ apply renew_raises_UpdateFailed | ].
  destruct c as [u p tok ex tk sn lg].
  unfold _async_renew_token, raise_for_status, login_request. run.
  repeat split; intros.
  - rewrite H. repeat step; eexists; reflexivity.
  - rewrite H. apply Z.leb_le in H0. rewrite H0.
    repeat step; eexists; reflexivity.
  - rewrite H, H0. repeat step; eexists; reflexivity.
  - rewrite H, H0.
    destruct (py_get body "jwt" VNone) as [jwt|e] eqn:Hjwt.
    + rewrite (H1 jwt eq_refl).
      repeat step; first [ eexists; reflexivity | discriminate ].
    + repeat step; eexists; reflexivity.
  - rewrite H, H0, H1, H2. repeat step; eexists; reflexivity.
Qed.

(** C3, as the code has it.  On a login response that was received with
    a good status and read as JSON: a body without a [jwt] field makes
    [_async_renew_token] raise [UpdateFailed], with the stored token
    cleared and the stored expiry untouched; a token whose decoded claims
    have no [exp] does not fail: the renewal returns, the token is stored,
    and the expiry defaults to one hour after the clock reading. *)
Theorem renew_missing_jwt_fails_missing_exp_defaults
  (env : Env) (c : coordinator) (r : response) (body : pyobj) :
  respond env (List.length (sent c)) (login_request c) = Ok r ->
  status r < 400 ->
  json r = Ok body ->
  let renewal := _async_renew_token env c in
  (forall entries,
     body = VDict entries -> assoc "jwt" entries = None ->
     (exists msg, fst renewal = Raise (Exn UpdateFailed msg))
     /\ _token (snd renewal) = VNone
     /\ _token_expiry (snd renewal) = _token_expiry c)
  /\ (forall jwt claims,
       py_get body "jwt" VNone = Ok jwt -> truthy jwt = true ->
       jwt_decode env jwt = Ok (VDict claims) ->
       assoc "exp" claims = None ->
       fst renewal = Ok tt
       /\ _token (snd renewal) = jwt
       /\ _token_expiry (snd renewal)
          = Some (now_at env (ticks c) + timedelta_hours 1)).
Proof.
  intros Hr Hst Hj. cbv zeta.
  assert (H400 : (400 <=? status r) = false) by (apply Z.leb_gt; lia).
  assert (H401 : (status r =? 401) = false) by (apply Z.eqb_neq; lia).
  destruct c as [u p tok ex tk sn lg].
  unfold login_request in Hr. fields.
  unfold _async_renew_token, raise_for_status. run.
  rewrite Hr, H400, H401, Hj. split.
  - intros entries -> Hnone. cbn [py_get]. rewrite Hnone. run.
    cbn. repeat split. eexists. reflexivity.
  - intros jwt claims Hjwt Ht Hd Hexp.
    rewrite Hjwt, Ht, Hd. cbn [negb py_get]. rewrite Hexp.
    cbn [truthy]. rewrite add_hour. run. repeat split.
Qed.

(** C3 as stated fails: a login whose token carries no [exp] claim makes
    the renewal return, with the token and a default expiry stored. *)
Lemma renew_without_exp_claim_completes :
  fst (_async_renew_token Samples.env_no_exp (init "user" "secret")) = Ok tt
  /\ _token (snd (_async_renew_token Samples.env_no_exp (init "user" "secret")))
     = Samples.sample_jwt
  /\ _token_expiry
       (snd (_async_renew_token Samples.env_no_exp (init "user" "secret")))
     = Some (Samples.t0 + 3600000000).
Proof. repeat split. Qed.





(* ------------------------------------------------------------------ *)
(** ** The theorems at sample inputs *)


Lemma no_expiry_is_expired_sample :
  is_token_expired Samples.env_hour (init "user" "secret")
  = (Ok true, init "user" "secret")
  /\ exists more,
       sent (snd (get_valid_token Samples.env_hour (init "user" "secret")))
       = (sent (init "user" "secret")
          ++ login_request (init "user" "secret") :: more)%list.
Proof.
  exact (no_expiry_is_expired Samples.env_hour (init "user" "secret") eq_refl).
Defined.

Lemma expiring_token_warns_and_stays_usable_sample :
  exists c',
    get_valid_token Samples.env_hour
      (Samples.holding (Samples.t0 + timedelta_minutes 10))
    = (Ok Samples.sample_jwt, c')
    /\ sent c' = [] /\ _token c' = Samples.sample_jwt
    /\ _token_expiry c' = Some (Samples.t0 + timedelta_minutes 10).
Proof.
  refine (proj2 (expiring_token_warns_and_stays_usable Samples.env_hour
                   (Samples.holding (Samples.t0 + timedelta_minutes 10))
                   _ eq_refl _) eq_refl).
  cbn. lia.
Defined.

Lemma renew_token_failure_is_UpdateFailed_sample :
  exists msg,
    fst (_async_renew_token Samples.env_offline (init "user" "secret"))
    = Raise (Exn UpdateFailed msg).
Proof.
  exact (proj1 (proj2 (renew_token_failure_is_UpdateFailed
                         Samples.env_offline (init "user" "secret")))
           _ eq_refl).
Defined.

Lemma renew_missing_jwt_fails_missing_exp_defaults_sample :
  ((exists msg,
      fst (_async_renew_token Samples.env_no_jwt (init "user" "secret"))
      = Raise (Exn UpdateFailed msg))
   /\ _token (snd (_async_renew_token Samples.env_no_jwt (init "user" "secret")))
      = VNone
   /\ _token_expiry
        (snd (_async_renew_token Samples.env_no_jwt (init "user" "secret")))
      = None)
  /\ (fst (_async_renew_token Samples.env_no_exp (init "user" "secret")) = Ok tt
      /\ _token (snd (_async_renew_token Samples.env_no_exp
                        (init "user" "secret")))
         = Samples.sample_jwt
      /\ _token_expiry (snd (_async_renew_token Samples.env_no_exp
                               (init "user" "secret")))
         = Some (Samples.t0 + timedelta_hours 1)).
Proof.
  split.
  - refine (proj1 (renew_missing_jwt_fails_missing_exp_defaults
                     Samples.env_no_jwt (init "user" "secret") _ _
                     eq_refl _ eq_refl) _ eq_refl eq_refl).
    cbn. lia.
  - refine (proj2 (renew_missing_jwt_fails_missing_exp_defaults
                     Samples.env_no_exp (init "user" "secret") _ _
                     eq_refl _ eq_refl) _ _ eq_refl eq_refl eq_refl eq_refl).
    cbn. lia.
Defined.


End CoordinatorFacts.

(* ------------------------------------------------------------------ *)
(** * Properties of the sensors *)

Module SensorFacts.

Import Shape.

(** C5.  On the fixture [example_data] the sensors give the fixture's
    literal values: the address, the EAN, the connection capacity, the
    status, and one meter. *)
Theorem example_data_field_mapping :
  Sensor.native_value "address" Coordinator.example_data
  = Ok (VStr "Mijnstraat 1 1000 AAB AMSTERDAM")
  /\ Sensor.native_value "electricity_ean" Coordinator.example_data
     = Ok (VStr "123456789012345678")
  /\ Sensor.native_value "connection_capacity" Coordinator.example_data
     = Ok (VStr "3x25A")
  /\ Sensor.native_value "status" Coordinator.example_data
     = Ok (VStr "In bedrijf")
  /\ Sensor.native_value "number_of_meters" Coordinator.example_data
     = Ok (VInt 1).
Proof. repeat split. Qed.













End SensorFacts.

(* ------------------------------------------------------------------ *)
(** * Properties of the config flow *)

Module ConfigFlowFacts.

Import ConfigFlow.

Section Validation.

Variable env : FlowEnv.

Lemma Range_ok (lo hi : option Z) (n m : Z) :
  Range lo hi n = Ok m ->
  m = n
  /\ match lo with Some l => l <= n | None => True end
  /\ match hi with Some h => n <= h | None => True end.
Proof.
  unfold Range, invalid.
  destruct lo as [l|], hi as [h|];
    repeat match goal with
           | |- context [?a <? ?b] => destruct (Z.ltb_spec a b)
           end; intros E; inversion E; repeat split; lia.
Qed.




(** What the timeout's validator accepts: a value that [int] turns into
    an integer from 1 to 30. *)
Lemma timeout_validator_ok (v : pyobj) (n : Z) :
  timeout_validator env v = Ok n ->
  Coerce_int env v = Ok n /\ 1 <= n <= 30.
Proof.
  unfold timeout_validator, positive_int.
  destruct (Coerce_int env v) as [m|e]; [ | discriminate ].
  cbn [obind].
  destruct (Range (Some 0) None m) as [m'|e] eqn:R0; [ | discriminate ].
  apply Range_ok in R0 as (-> & _). cbn [obind].
  intros R1. apply Range_ok in R1 as (-> & ? & ?). split; [ reflexivity | lia ].
Qed.





Lemma validate_item_key (k : string) (v : pyobj) (kv' : string * pyobj) :
  validate_item env (k, v) = Ok kv' -> fst kv' = k.
Proof.
  unfold validate_item.
  destruct (String.eqb k CONF_USERNAME); [ | destruct (String.eqb k CONF_PASSWORD);
    [ | destruct (String.eqb k "timeout") ] ].
  - destruct (cv_string v); cbn [obind]; intros H; inversion H; reflexivity.
  - destruct (cv_string v); cbn [obind]; intros H; inversion H; reflexivity.
  - destruct (timeout_validator env v); cbn [obind];
      intros H; inversion H; reflexivity.
  - discriminate.
Qed.

(** When the pass collects no error, the validated items keep the keys
    of the input, in its order: the first binding of a key in the input
    was validated into the first binding of that key in the output. *)
Lemma validate_items_assoc (entries out : list (string * pyobj))
  (k : string) (v : pyobj) :
  validate_items env entries = Ok (out, []) ->
  assoc k entries = Some v ->
  exists v', validate_item env (k, v) = Ok (k, v') /\ assoc k out = Some v'.
Proof.
  revert out. induction entries as [|[k0 v0] rest IH]; intros out;
    cbn [validate_items assoc]; [ discriminate | ].
  destruct (validate_item env (k0, v0)) as [[k1 v1]|e] eqn:V.
  - destruct (validate_items env rest) as [[items errs]|e]; cbn [obind fst snd];
      [ | discriminate ].
    intros H; inversion H; subst out errs.
    pose proof (validate_item_key _ _ _ V) as Hk. cbn [fst] in Hk. subst k1.
    cbn [assoc].
    destruct (String.eqb_spec k k0) as [->|Hne].
    + intros Hv; inversion Hv; subst v0. exists v1.
      split; [ exact V | reflexivity ].
    + intros Hv. apply (IH items eq_refl Hv).
  - destruct (is_Invalid (exc_cls e)); [ | discriminate ].
    destruct (validate_items env rest) as [[items errs]|e']; cbn [obind fst snd];
      discriminate.
Qed.



Lemma assoc_app_default (entries : list (string * pyobj)) (k : string)
  (d : pyobj) :
  assoc k entries = None -> assoc k (entries ++ [(k, d)]) = Some d.
Proof.
  induction entries as [|[k0 v0] rest IH]; cbn [assoc app].
  - rewrite String.eqb_refl. reflexivity.
  - destruct (String.eqb k k0); [ discriminate | exact IH ].
Qed.

Lemma assoc_app_some (entries more : list (string * pyobj)) (k : string)
  (v : pyobj) :
  assoc k entries = Some v -> assoc k (entries ++ more) = Some v.
Proof.
  induction entries as [|[k0 v0] rest IH]; cbn [assoc app]; [ discriminate | ].
  destruct (String.eqb k k0); [ trivial | exact IH ].
Qed.



Lemma timeout_item (v v' : pyobj) :
  validate_item env ("timeout", v) = Ok ("timeout", v') ->
  exists t, v' = VInt t /\ Coerce_int env v = Ok t /\ 1 <= t <= 30.
Proof.
  unfold validate_item. cbn [String.eqb Ascii.eqb Bool.eqb CONF_USERNAME CONF_PASSWORD].
  destruct (timeout_validator env v) as [n|e] eqn:T; cbn [obind];
    [ | discriminate ].
  intros H; inversion H; subst v'.
  exists n. split; [ reflexivity | ]. now apply timeout_validator_ok.
Qed.

(** What the schema has done when it accepts: the pass over the items,
    the default timeout put in, collected no error, and both required
    keys were there. *)
Lemma schema_accepts (entries : list (string * pyobj)) (out : pyobj) :
  STEP_USER_DATA_SCHEMA env (VDict entries) = Ok out ->
  exists items,
    validate_items env
      (if has_key "timeout" entries then entries
       else (entries ++ [("timeout", VInt 5)])%list)
    = Ok (items, [])
    /\ out = VDict items
    /\ has_key CONF_USERNAME entries = true
    /\ has_key CONF_PASSWORD entries = true.
Proof.
  unfold STEP_USER_DATA_SCHEMA, required, invalid.
  destruct (validate_items env _) as [[items errs]|e]; cbn [obind fst snd];
    [ | discriminate ].
  destruct errs as [|e errs]; cbn [app]; [ | discriminate ].
  destruct (has_key CONF_USERNAME entries); cbn [app]; [ | discriminate ].
  destruct (has_key CONF_PASSWORD entries); cbn [app]; [ | discriminate ].
  intros H; inversion H. exists items. repeat split.
Qed.



End Validation.



End ConfigFlowFacts.

(* ------------------------------------------------------------------ *)
(** * Further properties of the coordinator *)

Module CoordinatorMore.

Import Coordinator CoordinatorFacts Notions.
Local Open Scope coord_scope.

(** X1.  Whatever its outcome, a run of [_async_renew_token] adds exactly
    one request, the login POST with the stored username and password,
    and leaves the stored credentials as they were. *)
Theorem renewal_sends_one_login_request (env : Env) (c : coordinator) :
  let c' := snd (_async_renew_token env c) in
  sent c' = (sent c ++ [login_request c])%list
  /\ _username c' = _username c
  /\ _password c' = _password c.
Proof.
  cbv zeta. destruct (_async_renew_token env c) as [o c'] eqn:R.
  destruct (renew_run _ _ _ _ R) as (Hs & Hu & Hp & _). cbn [snd].
  repeat split; assumption.
Qed.

(** X2.  After a run of [_async_renew_token] the stored token is the
    [jwt] value read from the login response when one was read (be it
    [None], empty or undecodable), and the token held before otherwise;
    when no [jwt] value was read the run raises; and a run that raises
    leaves the stored expiry as it was. *)
Theorem renewal_token_and_expiry_on_failure (env : Env) (c : coordinator) :
  let result := fst (_async_renew_token env c) in
  let c' := snd (_async_renew_token env c) in
  _token c' = match login_jwt env c with
              | Some jwt => jwt
              | None => _token c
              end
  /\ (login_jwt env c = None -> exists e, result = Raise e)
  /\ (forall e, result = Raise e -> _token_expiry c' = _token_expiry c).
Proof.
  cbv zeta. unfold login_jwt.
  destruct c as [u p tok ex tk sn lg].
  unfold _async_renew_token, raise_for_status, login_request. run.
  repeat step; try status_clash;
    (split; [ reflexivity | split ]);
    intros; try discriminate; try reflexivity; eexists; reflexivity.
Qed.

(** A renewal up to the expiry it stores, when the login answers with a
    usable token whose claims decode to a dict: the token is stored, and
    the renewal returns with the expiry stored, or raises and leaves the
    expiry, as the computation of the expiry does. *)
Lemma renew_with_claims (env : Env) (c : coordinator)
  (jwt : pyobj) (claims : list (string * pyobj)) :
  login_jwt env c = Some jwt ->
  truthy jwt = true ->
  jwt_decode env jwt = Ok (VDict claims) ->
  let exp_timestamp :=
    match assoc "exp" claims with Some v => v | None => VNone end in
  let started :=
    [(DEBUG, "Renewing token..."); (DEBUG, "Request data: %s")] in
  if truthy exp_timestamp
  then match datetime_fromtimestamp exp_timestamp with
       | Ok expiry =>
           _async_renew_token env c
           = (Ok tt,
              Coord (_username c) (_password c) jwt (Some expiry) (ticks c)
                (sent c ++ [login_request c])
                (logged c ++ started ++
                 [(DEBUG, "Token refreshed successfully, new expiry at %s")]))
       | Raise e =>
           (exists msg,
              fst (_async_renew_token env c) = Raise (Exn UpdateFailed msg))
           /\ _token (snd (_async_renew_token env c)) = jwt
           /\ _token_expiry (snd (_async_renew_token env c)) = _token_expiry c
       end
  else _async_renew_token env c
       = (Ok tt,
          Coord (_username c) (_password c) jwt
            (Some (now_at env (ticks c) + timedelta_hours 1)) (S (ticks c))
            (sent c ++ [login_request c])
            (logged c ++ started ++
             [(DEBUG, "Token refreshed successfully, new expiry at %s")])).
Proof.
  intros Hjwt Ht Hd. cbv zeta. unfold login_jwt in Hjwt.
  destruct c as [u p tok ex tk sn lg].
  unfold login_request in *. fields.
  unfold _async_renew_token, raise_for_status. run.
  destruct (respond env _ _) as [r|]; [ | discriminate ].
  destruct (400 <=? status r) eqn:H400; [ discriminate | ].
  assert (H401 : (status r =? 401) = false)
    by (apply Z.leb_gt in H400; apply Z.eqb_neq; lia).
  rewrite H401.
  destruct (json r) as [body|]; [ | discriminate ].
  destruct (py_get body "jwt" VNone) as [j|]; [ | discriminate ].
  inversion Hjwt; subst j. rewrite Ht, Hd. cbn [negb py_get].
  destruct (truthy match assoc "exp" claims with
                   | Some v => v
                   | None => VNone
                   end).
  - destruct (datetime_fromtimestamp _) as [expiry|e]; run.
    + rewrite <- !app_assoc. reflexivity.
    + repeat step; (split; [ eexists; reflexivity | split; reflexivity ]).
  - rewrite add_hour. run. rewrite <- !app_assoc. reflexivity.
Qed.

(** X3.  When the login returns a usable token whose decoded claims carry
    the integer [exp = n], the renewal stores the token.  For [n] in the
    calendar ([SECONDS_MIN] to [SECONDS_MAX]) it returns, with the expiry
    [n] seconds after the epoch, or one hour after the clock reading when
    [n] is 0 (an [exp] of 0 counts as absent); for [n] other than 0 and at
    least thirty minutes into the calendar, [is_token_expired] then holds
    exactly from 300 seconds before [n] on.  For [n] outside the calendar
    (an [exp] in milliseconds, for one) the renewal raises [UpdateFailed]
    and leaves the stored expiry as it was. *)
Theorem renewed_token_expiry (env : Env) (c : coordinator)
  (jwt : pyobj) (claims : list (string * pyobj)) (n : Z) :
  login_jwt env c = Some jwt ->
  truthy jwt = true ->
  jwt_decode env jwt = Ok (VDict claims) ->
  assoc "exp" claims = Some (VInt n) ->
  let result := fst (_async_renew_token env c) in
  let c' := snd (_async_renew_token env c) in
  _token c' = jwt
  /\ (SECONDS_MIN <= n <= SECONDS_MAX ->
      result = Ok tt
      /\ _token_expiry c'
         = Some (if n =? 0 then now_at env (ticks c) + timedelta_hours 1
                 else n * 1000000)
      /\ (n <> 0 -> SECONDS_MIN + 1800 <= n ->
          (fst (is_token_expired env c') = Ok true
           <-> (n - 300) * 1000000 <= now_at env (ticks c))))
  /\ (n < SECONDS_MIN \/ SECONDS_MAX < n ->
      (exists msg, result = Raise (Exn UpdateFailed msg))
      /\ _token_expiry c' = _token_expiry c).
Proof.
  intros Hjwt Ht Hd Hexp. cbv zeta.
  pose proof (renew_with_claims env c jwt claims Hjwt Ht Hd) as R.
  cbv zeta in R. rewrite Hexp in R. cbn [truthy] in R.
  destruct (Z.eqb_spec n 0) as [->|Hn]; cbn [negb] in R.
  - rewrite R. cbn [fst snd _token _token_expiry].
    split; [ reflexivity | split ].
    + intros _. split; [ reflexivity | split; [ reflexivity | ] ].
      intros Hn. contradiction.
    + unfold SECONDS_MIN, SECONDS_MAX. lia.
  - destruct (datetime_fromtimestamp (VInt n)) as [expiry|e] eqn:F.
    + rewrite R. cbn [fst snd _token _token_expiry].
      split; [ reflexivity | split ].
      * intros Hr. rewrite (fromtimestamp_int n Hr) in F. inversion F.
        split; [ reflexivity | split; [ reflexivity | ] ].
        intros _ Hlo.
        match goal with
        | |- context [is_token_expired env ?st] =>
            destruct (expired_some env st (n * 1000000) eq_refl) as (Hok & _)
        end.
        cbv zeta in Hok. fields.
        rewrite Hok
          by (unfold checkable, timedelta_minutes, DATETIME_MIN, DATETIME_MAX,
                SECONDS_MIN, SECONDS_MAX in *; lia).
        cbn [fst]. unfold timedelta_minutes.
        destruct (Z.leb_spec (n * 1000000 - 5 * 60 * 1000000)
                    (now_at env (ticks c)));
          split; intros; try reflexivity; try discriminate; lia.
      * intros Hr. destruct (fromtimestamp_int_overflow n Hr) as (e & Fe).
        rewrite Fe in F. discriminate.
    + destruct R as (Rf & Rt & Rx).
      split; [ exact Rt | split ].
      * intros Hr. rewrite (fromtimestamp_int n Hr) in F. discriminate.
      * intros _. split; assumption.
Qed.

(** The expiry check on a held token that the clock finds more than five
    minutes from its expiry: the token is returned as it is. *)
Lemma check_held (env : Env) (c : coordinator) (expiry : datetime) :
  truthy (_token c) = true ->
  _token_expiry c = Some expiry ->
  expiry <= DATETIME_MAX + timedelta_minutes 5 ->
  now_at env (ticks c) < expiry - timedelta_minutes 5 ->
  exists c',
    check_and_return env c = (Ok (_token c), c')
    /\ sent c' = sent c /\ _token c' = _token c
    /\ _token_expiry c' = Some expiry /\ ticks c' = S (ticks c).
Proof.
  intros Ht He Hmax Hnow.
  assert (Hc : checkable expiry).
  { destruct (now_in_range env (ticks c)) as [N1 N2].
    unfold checkable, timedelta_minutes, timedelta_hours in *. lia. }
  destruct (expired_some env c expiry He) as (Hok & _).
  specialize (Hok Hc). apply Z.leb_gt in Hnow. rewrite Hnow in Hok.
  eexists. unfold check_and_return. cbv beta delta [bind]. rewrite Hok. run.
  rewrite (truthy_not_none _ Ht).
  split; [ reflexivity | ]. repeat split. exact He.
Qed.

Lemma held_token_returned (env : Env) (c : coordinator) (expiry : datetime) :
  truthy (_token c) = true ->
  _token_expiry c = Some expiry ->
  expiry <= DATETIME_MAX + timedelta_minutes 5 ->
  now_at env (ticks c) < expiry - timedelta_minutes 5 ->
  exists c',
    get_valid_token env c = (Ok (_token c), c')
    /\ sent c' = sent c /\ _token c' = _token c
    /\ _token_expiry c' = Some expiry /\ ticks c' = S (ticks c).
Proof.
  intros Ht He Hmax Hnow.
  destruct (check_held env c expiry Ht He Hmax Hnow) as (c' & K & H).
  exists c'. rewrite get_valid_token_unfold. run. rewrite Ht. cbn [negb].
  split; assumption.
Qed.

(** X4.  After [get_valid_token] has returned a token, a second call made
    while the clock is more than five minutes before the stored expiry
    returns the same token and sends no request. *)
Theorem valid_token_is_reused (env : Env) (c c1 : coordinator)
  (tok : pyobj) (expiry : datetime) :
  get_valid_token env c = (Ok tok, c1) ->
  _token_expiry c1 = Some expiry ->
  now_at env (ticks c1) < expiry - timedelta_minutes 5 ->
  exists c2,
    get_valid_token env c1 = (Ok tok, c2)
    /\ sent c2 = sent c1 /\ _token c2 = tok
    /\ _token_expiry c2 = Some expiry.
Proof.
  intros H He Hnow.
  destruct (get_valid_token_run _ _ _ _ H)
    as (_ & _ & _ & Htok & Ht & (expiry' & Hx & Hmax) & _).
  subst tok. rewrite He in Hx. inversion Hx; subst expiry'.
  destruct (held_token_returned env c1 expiry Ht He Hmax Hnow)
    as (c2 & G & Hs & Hk & Hx2 & _).
  exists c2. repeat split; assumption.
Qed.

(** X6.  With a stored expiry at or after 0001-01-01T00:30Z,
    [is_token_expired] logs the warning exactly when the clock is at or
    past thirty minutes before the expiry, and logs nothing else; before
    that it returns [False]; whenever it returns [True] it has logged the
    warning.  With an earlier stored expiry it raises [OverflowError]
    and logs nothing. *)
Theorem warning_exactly_within_30_minutes
  (env : Env) (c : coordinator) (expiry : datetime) :
  _token_expiry c = Some expiry ->
  expiry <= DATETIME_MAX ->
  let now := now_at env (ticks c) in
  let result := fst (is_token_expired env c) in
  let c' := snd (is_token_expired env c) in
  let warning :=
    (WARNING, "Token is about to expire in less than 30 minutes.") in
  (DATETIME_MIN + timedelta_minutes 30 <= expiry ->
   (expiry - timedelta_minutes 30 <= now ->
    logged c' = (logged c ++ [warning])%list)
   /\ (now < expiry - timedelta_minutes 30 ->
       logged c' = logged c /\ result = Ok false)
   /\ (result = Ok true -> logged c' = (logged c ++ [warning])%list))
  /\ (expiry < DATETIME_MIN + timedelta_minutes 30 ->
      result = Raise (Exn OverflowError "date value out of range")
      /\ logged c' = logged c).
Proof.
  intros He Hmax. cbv zeta.
  destruct (expired_some env c expiry He) as (Hok & Hlo & _).
  split.
  - intros Hmin.
    rewrite Hok by (unfold checkable, timedelta_minutes in *; lia).
    cbn [fst snd logged]. unfold timedelta_minutes.
    destruct (Z.leb_spec (expiry - 30 * 60 * 1000000) (now_at env (ticks c)));
      destruct (Z.leb_spec (expiry - 5 * 60 * 1000000) (now_at env (ticks c)));
      (split; [ | split ]); intros; try split;
      try reflexivity; try discriminate; try lia.
  - intros Hmin. rewrite (Hlo Hmin). split; reflexivity.
Qed.

(** X7.  A poll by a coordinator without a token, against a server that
    answers the login with a token whose [exp] is in the calendar and more
    than five minutes ahead, and the data request with a JSON payload:
    [_async_update_data] returns the payload after exactly two requests,
    the login POST and the GET with the new token, and leaves the token
    and its expiry stored. *)
Theorem first_poll_logs_in_then_fetches (env : Env) (c : coordinator)
  (jwt : pyobj) (claims : list (string * pyobj)) (n : Z)
  (r : response) (payload : pyobj) :
  truthy (_token c) = false ->
  login_jwt env c = Some jwt ->
  truthy jwt = true ->
  jwt_decode env jwt = Ok (VDict claims) ->
  assoc "exp" claims = Some (VInt n) ->
  now_at env (ticks c) < (n - 300) * 1000000 ->
  n <> 0 ->
  n <= SECONDS_MAX ->
  respond env (S (List.length (sent c))) (data_request jwt) = Ok r ->
  status r < 400 ->
  json r = Ok payload ->
  let c' := snd (_async_update_data env c) in
  fst (_async_update_data env c) = Ok payload
  /\ sent c' = (sent c ++ [login_request c; data_request jwt])%list
  /\ _token c' = jwt
  /\ _token_expiry c' = Some (n * 1000000).
Proof.
  intros Htok Hjwt Ht Hd Hexp Hnow Hn Hmax Hr Hst Hj. cbv zeta.
  destruct (now_in_range env (ticks c)) as [N1 N2].
  assert (Hrange : SECONDS_MIN <= n <= SECONDS_MAX).
  { unfold DATETIME_MIN, SECONDS_MIN, SECONDS_MAX, timedelta_hours in *. lia. }
  set (c0 := noted DEBUG "Token is not available, re-authenticating..." c).
  assert (Hjwt0 : login_jwt env c0 = Some jwt) by exact Hjwt.
  pose proof (renew_with_claims env c0 jwt claims Hjwt0 Ht Hd) as R.
  cbv zeta in R. rewrite Hexp in R. cbn [truthy] in R.
  apply Z.eqb_neq in Hn. rewrite Hn in R. cbn [negb] in R.
  rewrite (fromtimestamp_int n Hrange) in R.
  subst c0. unfold noted, log, modify in R. cbn [snd] in R. fields.
  match type of R with
  | _ = (_, ?st) =>
      destruct (check_held env st (n * 1000000) Ht eq_refl) as
        (c1 & K & Hs & Hk & Hx & _);
      [ unfold timedelta_minutes, DATETIME_MAX, SECONDS_MAX in *; lia
      | cbn [ticks]; unfold timedelta_minutes; lia | ]
  end.
  fields.
  assert (G : get_valid_token env c = (Ok jwt, c1)).
  { rewrite get_valid_token_unfold. run. rewrite Htok. cbn [negb].
    rewrite R. exact K. }
  pose proof (update_after_token env c c1 jwt G) as (Us & Ut & Ux & _ & Ur).
  cbv zeta in Us, Ut, Ux, Ur.
  rewrite Hs, length_app, Nat.add_comm in Ur. cbn [List.length Nat.add] in Ur.
  rewrite Hr in Ur.
  assert (H400 : (400 <=? status r) = false) by (apply Z.leb_gt; lia).
  rewrite H400, Hj in Ur.
  rewrite Ur, Us, Ut, Ux, Hs, Hk, Hx, <- app_assoc.
  unfold login_request. repeat split.
Qed.

(** X5.  One call of [get_valid_token] sends at most two requests, each
    the login request with the stored credentials; one call of
    [_async_update_data] sends at most three requests. *)
Theorem requests_per_poll_bounded (env : Env) (c : coordinator) :
  (exists k, (k <= 2)%nat
     /\ sent (snd (get_valid_token env c))
        = (sent c ++ repeat (login_request c) k)%list)
  /\ (List.length (sent (snd (_async_update_data env c)))
      <= List.length (sent c) + 3)%nat.
Proof.
  destruct (get_valid_token env c) as [o1 c1] eqn:G.
  destruct (get_valid_token_run _ _ _ _ G) as ((k & Hk & Hs) & _).
  split; [ exists k; split; assumption | ].
  assert (Hlen : (List.length (sent c1) <= List.length (sent c) + 2)%nat)
    by (rewrite Hs, length_app, repeat_length; lia).
  destruct o1 as [tok|e].
  - destruct (update_after_token env c c1 tok G) as (Us & _).
    cbv zeta in Us. rewrite Us, length_app. cbn [List.length]. lia.
  - rewrite (update_without_token env c c1 e G). cbn [snd]. lia.
Qed.

End CoordinatorMore.

(* ------------------------------------------------------------------ *)
(** * Further properties of the sensors *)

Module SensorMore.

Import Notions.

(** Splits on the call result a chain of [let?] waits for. *)
Ltac ostep :=
  match goal with
  | |- context [obind ?o _] =>
      lazymatch o with
      | context [obind _ _] => fail
      | _ => destruct o eqn:?
      end
  end; cbn [obind].

Lemma lstrip_head (s : string) (c : ascii) (rest : string) :
  lstrip s = String c rest -> is_space c = false.
Proof.
  induction s as [|d s IH]; cbn [lstrip]; [ discriminate | ].
  destruct (is_space d) eqn:Hd; [ exact IH | ].
  intros H; inversion H; subst. exact Hd.
Qed.

Lemma rstrip_cons (c : ascii) (s : string) :
  rstrip (String c s)
  = match rstrip s with
    | EmptyString => if is_space c then EmptyString else String c EmptyString
    | String d r => String c (String d r)
    end.
Proof. reflexivity. Qed.

Lemma rstrip_idempotent (s : string) : rstrip (rstrip s) = rstrip s.
Proof.
  induction s as [|c s IH]; [ reflexivity | ].
  rewrite rstrip_cons. destruct (rstrip s) as [|d r] eqn:R.
  - destruct (is_space c) eqn:Hc; [ reflexivity | ].
    rewrite rstrip_cons. cbn [rstrip]. rewrite Hc. reflexivity.
  - rewrite rstrip_cons, IH. reflexivity.
Qed.

Lemma rstrip_keeps_head (c : ascii) (s : string) :
  is_space c = false -> exists r, rstrip (String c s) = String c r.
Proof.
  intros Hc. rewrite rstrip_cons. destruct (rstrip s).
  - rewrite Hc. eexists. reflexivity.
  - eexists. reflexivity.
Qed.

Lemma strip_idempotent (s : string) : strip (strip s) = strip s.
Proof.
  unfold strip. destruct (lstrip s) as [|c r] eqn:L; [ reflexivity | ].
  pose proof (lstrip_head _ _ _ L) as Hc.
  destruct (rstrip_keeps_head c r Hc) as (r' & E).
  rewrite E. cbn [lstrip]. rewrite Hc, <- E. apply rstrip_idempotent.
Qed.

Lemma elektra_field_other (key : string) (elektra value : pyobj) :
  existsb (String.eqb key)
    ["electricity_ean"; "connection_capacity"; "status"; "network_costs";
     "maximum_power"] = false ->
  Sensor.elektra_field key elektra value = Ok value.
Proof.
  unfold Sensor.elektra_field. cbn [existsb]. intros H.
  repeat (apply orb_false_iff in H as [-> H]). reflexivity.
Qed.

Lemma meter_field_other (key : string) (meter value : pyobj) :
  existsb (String.eqb key)
    ["meter_number"; "number_of_registers"; "number_of_phases"] = false ->
  Sensor.meter_field key meter value = Ok value.
Proof.
  unfold Sensor.meter_field. cbn [existsb]. intros H.
  repeat (apply orb_false_iff in H as [-> H]). reflexivity.
Qed.

(** With a key that names no field of a connection or a meter, an
    iteration that goes past the address leaves [value] as it was. *)
Lemma sensor_loop_no_field (key : string) (accounts : list pyobj) :
  existsb (String.eqb key)
    ["electricity_ean"; "connection_capacity"; "status"; "network_costs";
     "maximum_power"; "number_of_meters"; "meter_number";
     "number_of_registers"; "number_of_phases"] = false ->
  forall v,
    Sensor.accounts_loop key VNone accounts = Ok v ->
    v = VNone
    \/ (key = "address" /\ exists s, v = VStr (strip s)).
Proof.
  intros Hkey. cbn [existsb] in Hkey.
  repeat rewrite orb_false_iff in Hkey.
  destruct Hkey as (K1 & K2 & K3 & K4 & K5 & Hn & K7 & K8 & K9 & _).
  assert (He : existsb (String.eqb key)
                 ["electricity_ean"; "connection_capacity"; "status";
                  "network_costs"; "maximum_power"] = false)
    by (cbn [existsb]; rewrite K1, K2, K3, K4, K5; reflexivity).
  assert (Hm : existsb (String.eqb key)
                 ["meter_number"; "number_of_registers"; "number_of_phases"]
               = false)
    by (cbn [existsb]; rewrite K7, K8, K9; reflexivity).
  induction accounts as [|account rest IH]; intros v.
  - cbn. intros H; inversion H. left. reflexivity.
  - cbn [Sensor.accounts_loop]. ostep; [ | discriminate ].
    destruct (truthy a && isinstance_dict a && String.eqb key "address")
      eqn:Haddr.
    + apply andb_true_iff in Haddr as [_ Hk]. apply String.eqb_eq in Hk.
      repeat (ostep; [ | discriminate ]).
      intros H; inversion H. right. split; [ assumption | ].
      eexists. reflexivity.
    + repeat (ostep; [ | discriminate ]).
      destruct (truthy a1); [ | apply IH ].
      ostep; [ | discriminate ].
      rewrite (elektra_field_other key _ _ He). cbn [obind].
      ostep; [ | discriminate ].
      destruct (truthy a3).
      * rewrite Hn. cbn [obind]. ostep; [ | discriminate ].
        rewrite (meter_field_other key _ _ Hm). cbn [obind is_none negb].
        apply IH.
      * cbn [obind is_none negb]. apply IH.
Qed.

(** X8.  Whatever [native_value] returns for the address sensor is
    [None] or a text without leading or trailing whitespace (a text that
    [strip] leaves as it is). *)
Theorem address_is_stripped_text_or_none (data v : pyobj) :
  Sensor.native_value "address" data = Ok v ->
  v = VNone \/ exists s, v = VStr s /\ strip s = s.
Proof.
  unfold Sensor.native_value. destruct (truthy data).
  - ostep; [ | discriminate ]. intros H.
    destruct (sensor_loop_no_field "address" _ eq_refl v H)
      as [->|(_ & s & ->)]; [ left; reflexivity | right ].
    exists (strip s). split; [ reflexivity | apply strip_idempotent ].
  - intros H; inversion H. left. reflexivity.
Qed.

Lemma binary_loop_unknown (key : string) (accounts : list pyobj) :
  existsb (String.eqb key) BinaryEntity.BINARY_SENSOR_KEYS = false ->
  forall v, BinarySensor.accounts_loop key accounts = Ok v -> v = VBool false.
Proof.
  intros Hkey. cbn [existsb BinaryEntity.BINARY_SENSOR_KEYS] in Hkey.
  repeat rewrite orb_false_iff in Hkey.
  destruct Hkey as (K1 & K2 & K3 & K4 & K5 & K6 & _).
  induction accounts as [|account rest IH]; intros v.
  - cbn. intros H; inversion H. reflexivity.
  - cbn [BinarySensor.accounts_loop].
    repeat (ostep; [ | discriminate ]).
    destruct (truthy a0); [ | apply IH ].
    repeat (ostep; [ | discriminate ]).
    rewrite K1, K2, K3, K4, K5, K6. cbn [andb]. apply IH.
Qed.

(** X9.  For a key outside [SENSOR_DESCRIPTIONS], whatever
    [native_value] returns is [None]; for a key outside
    [BINARY_SENSOR_DESCRIPTIONS], whatever [is_on] returns is [False]. *)
Theorem unknown_key_reads_as_absent (key : string) (data : pyobj) :
  (existsb (String.eqb key)
     (map SensorEntity.key SensorEntity.SENSOR_DESCRIPTIONS) = false ->
   forall v, Sensor.native_value key data = Ok v -> v = VNone)
  /\ (existsb (String.eqb key) BinaryEntity.BINARY_SENSOR_KEYS = false ->
      forall v, BinarySensor.is_on key data = Ok v -> v = VBool false).
Proof.
  split.
  - intros Hkey v. unfold Sensor.native_value.
    cbn [existsb map SensorEntity.SENSOR_DESCRIPTIONS SensorEntity.key] in Hkey.
    apply orb_false_iff in Hkey as [Haddr Hkey].
    destruct (truthy data); [ | intros H; inversion H; reflexivity ].
    ostep; [ | discriminate ]. intros H.
    destruct (sensor_loop_no_field key _ Hkey v H) as [->|(-> & _)];
      [ reflexivity | discriminate Haddr ].
  - intros Hkey v. unfold BinarySensor.is_on.
    destruct (truthy data); cbn [negb];
      [ | intros H; inversion H; reflexivity ].
    ostep; [ | discriminate ]. apply binary_loop_unknown. exact Hkey.
Qed.

Lemma binary_loop_skips (key : string) (skipped rest : list pyobj) :
  forallb no_connection skipped = true ->
  BinarySensor.accounts_loop key (skipped ++ rest)
  = BinarySensor.accounts_loop key rest.
Proof.
  induction skipped as [|account more IH]; intros Hall; [ reflexivity | ].
  cbn [forallb] in Hall. apply andb_true_iff in Hall as [Hacc Hmore].
  cbn [app BinarySensor.accounts_loop].
  destruct account as [ | | | | | | entries]; try discriminate Hacc.
  cbn [no_connection] in Hacc. cbn [py_get obind].
  destruct (assoc "aansluitingen" entries) as [[ | | | | | | connections]|];
    try discriminate Hacc; cbn [py_get obind assoc].
  - destruct (assoc "elektra" connections) as [v|].
    + apply negb_true_iff in Hacc. rewrite Hacc. apply IH. assumption.
    + cbn [truthy]. apply IH. assumption.
  - apply IH. assumption.
Qed.

(** X10.  For the keys [contract], [toestemmingVoorUitlezen] and
    [levertTerug], [is_on] skips the accounts that have no electricity
    connection and returns the field of the first connection of the first
    account that has one, as it is stored ([False] when missing); the
    other connections and the accounts after it are not read, whatever
    they are. *)
Theorem first_connection_decides
  (key : string) (skipped rest others : list pyobj)
  (entries connections fields : list (string * pyobj)) :
  In key ["contract"; "toestemmingVoorUitlezen"; "levertTerug"] ->
  forallb no_connection skipped = true ->
  assoc "aansluitingen" entries = Some (VDict connections) ->
  assoc "elektra" connections = Some (VList (VDict fields :: others)) ->
  BinarySensor.is_on key (VList (skipped ++ VDict entries :: rest))
  = Ok (match assoc key fields with
        | Some v => v
        | None => VBool false
        end).
Proof.
  intros Hkey Hskip Ha He. unfold BinarySensor.is_on.
  assert (Ht : truthy (VList (skipped ++ VDict entries :: rest)) = true)
    by (destruct skipped; reflexivity).
  rewrite Ht. cbn [negb py_iter obind].
  rewrite (binary_loop_skips key skipped _ Hskip).
  cbn [BinarySensor.accounts_loop py_get obind]. rewrite Ha.
  cbn [py_get obind]. rewrite He. cbn [truthy py_index0 obind py_get].
  destruct Hkey as [<-|[<-|[<-|[]]]]; cbn [String.eqb Ascii.eqb Bool.eqb andb];
    reflexivity.
Qed.

Lemma collect_elektra_lists (accounts listed : list pyobj) (account : pyobj)
  (connections : pyobj) (items : list pyobj) :
  BinaryEntity.collect_elektra accounts = Ok listed ->
  In account accounts ->
  py_get account "aansluitingen" (VDict []) = Ok connections ->
  py_get connections "elektra" (VList []) = Ok (VList items) ->
  incl items listed.
Proof.
  revert listed. induction accounts as [|first more IH]; intros listed;
    [ intros _ [] | ].
  cbn [BinaryEntity.collect_elektra].
  destruct (py_get first "aansluitingen" (VDict [])) as [c1|] eqn:G1;
    cbn [obind]; [ | discriminate ].
  destruct (py_get c1 "elektra" (VList [])) as [e1|] eqn:G2;
    cbn [obind]; [ | discriminate ].
  destruct (py_iter e1) as [items1|] eqn:I1; cbn [obind]; [ | discriminate ].
  destruct (BinaryEntity.collect_elektra more) as [rest|] eqn:C;
    cbn [obind]; [ | discriminate ].
  intros H [<-|Hin] Ha He; inversion H; subst listed.
  - rewrite G1 in Ha. inversion Ha; subst c1.
    rewrite G2 in He. inversion He; subst e1.
    cbn in I1. inversion I1; subst items1. apply incl_appl, incl_refl.
  - apply incl_appr. exact (IH rest eq_refl Hin Ha He).
Qed.

(** X11.  When [extra_state_attributes] returns, its result has the keys
    [attribution] and [Elektra], and [Elektra] lists every electricity
    connection of every account, not only the first. *)
Theorem every_connection_is_listed
  (accounts : list pyobj) (attributes account connections : pyobj)
  (items : list pyobj) :
  BinaryEntity.extra_state_attributes (VList accounts) = Ok attributes ->
  In account accounts ->
  py_get account "aansluitingen" (VDict []) = Ok connections ->
  py_get connections "elektra" (VList []) = Ok (VList items) ->
  exists listed,
    attributes = VDict [("attribution", VStr BinaryEntity.ATTRIBUTION);
                        ("Elektra", VList listed)]
    /\ incl items listed.
Proof.
  intros H Hin Ha He. unfold BinaryEntity.extra_state_attributes in H.
  destruct accounts as [|first more]; [ destruct Hin | ].
  cbn [truthy py_iter obind] in H.
  destruct (BinaryEntity.collect_elektra (first :: more)) as [listed|] eqn:C;
    cbn [obind] in H; [ | discriminate ].
  inversion H. exists listed. split; [ reflexivity | ].
  exact (collect_elektra_lists _ _ _ _ _ C Hin Ha He).
Qed.

(** X12.  A record whose [elektra] field is [null]: [is_on] reads it as
    a record without connections, [extra_state_attributes] raises
    [TypeError]. *)
Theorem null_connection_list_breaks_attributes_only
  (key : string) (rest : list pyobj)
  (entries connections : list (string * pyobj)) :
  assoc "aansluitingen" entries = Some (VDict connections) ->
  assoc "elektra" connections = Some VNone ->
  BinarySensor.is_on key (VList (VDict entries :: rest))
  = BinarySensor.is_on key (VList (VDict [] :: rest))
  /\ BinarySensor.is_on key (VList [VDict entries]) = Ok (VBool false)
  /\ BinaryEntity.extra_state_attributes (VList (VDict entries :: rest))
     = Raise (Exn TypeError "'NoneType' object is not iterable").
Proof.
  intros Ha He. unfold BinarySensor.is_on, BinaryEntity.extra_state_attributes.
  cbn [truthy negb py_iter obind BinarySensor.accounts_loop
       BinaryEntity.collect_elektra py_get assoc].
  rewrite Ha. cbn [py_get obind]. rewrite He.
  cbn [truthy py_iter obind]. repeat split.
Qed.

End SensorMore.

(* ------------------------------------------------------------------ *)
(** * Properties of the entities *)

Module EntityFacts.

Import SensorEntity.

(** X13.  The icon of a sensor of [SENSOR_DESCRIPTIONS]: for every
    sensor but the status sensor it is the description's icon, whatever
    the data (the data is not read); for the status sensor it is
    [mdi:check-circle] when [native_value] is [In bedrijf] or [Active],
    [mdi:cancel] for every other value, [None] included, and it raises
    what [native_value] raises. *)
Theorem icon_follows_status_only
  (description : LianderSensorEntityDescription) (uid data : pyobj) :
  In description SENSOR_DESCRIPTIONS ->
  let sensor := new_sensor description uid in
  (String.eqb (key description) "status" = false ->
   sensor_icon sensor data = Ok (icon description))
  /\ (String.eqb (key description) "status" = true ->
      sensor_icon sensor data
      = match Sensor.native_value "status" data with
        | Ok v =>
            Ok (Some (if eq_text v "In bedrijf" || eq_text v "Active"
                      then "mdi:check-circle" else "mdi:cancel"))
        | Raise e => Raise e
        end).
Proof.
  intros Hin. cbv zeta. unfold SENSOR_DESCRIPTIONS in Hin. cbn [In] in Hin.
  repeat (destruct Hin as [<-|Hin]; [ split; intros Hk; try discriminate Hk | ]);
    try contradiction; try reflexivity.
  unfold sensor_icon, is_inactive. cbn.
  destruct (Sensor.native_value "status" data) as [v|e]; cbn [obind];
    [ | reflexivity ].
  destruct (eq_text v "In bedrijf" || eq_text v "Active"); reflexivity.
Qed.

Lemma append_same_prefix (p a b : string) : p ++ a = p ++ b -> a = b.
Proof.
  induction p as [|c p IH]; cbn [String.append]; [ trivial | ].
  intros H; inversion H. apply IH. assumption.
Qed.

Lemma NoDup_map_prefix (p : string) (suffixes : list string) :
  NoDup suffixes -> NoDup (map (String.append p) suffixes).
Proof.
  induction 1 as [|x l Hnot Hnd IH]; cbn [map]; constructor; [ | exact IH ].
  intros Hin. apply in_map_iff in Hin as (y & Hy & Hin).
  apply append_same_prefix in Hy. subst y. contradiction.
Qed.

(** X14.  For one config entry, the unique ids of the ten sensors and of
    the six binary sensors are pairwise distinct. *)
Theorem unique_ids_are_distinct (uid : pyobj) :
  NoDup (map (fun d => _attr_unique_id (new_sensor d uid)) SENSOR_DESCRIPTIONS
         ++ map (BinaryEntity.binary_unique_id uid)
              BinaryEntity.BINARY_SENSOR_KEYS).
Proof.
  change (NoDup (map (String.append (py_str uid))
                   (map (fun d => "." ++ key d) SENSOR_DESCRIPTIONS
                    ++ map (String.append "_") BinaryEntity.BINARY_SENSOR_KEYS))).
  apply NoDup_map_prefix.
  cbn [map app SENSOR_DESCRIPTIONS BinaryEntity.BINARY_SENSOR_KEYS key
       String.append].
  repeat (constructor; [ cbn [In]; intuition discriminate | ]).
  constructor.
Qed.

End EntityFacts.

(* ------------------------------------------------------------------ *)
(** * Further properties of the config flow *)

Module ConfigFlowMore.

Import Coordinator ConfigFlow ConfigFlowFacts Notions.

(** X15.  The message [map_error_to_message] gives for the code
    [_map_http_error] gives for an HTTP status: the credentials message
    for 401, the unavailable message for 503, the bare code
    [unknown_error] for 403, 404 and 429 (their codes have no message),
    and the unknown-error message for every other status. *)
Theorem http_status_to_message (status : Z) :
  status_message status
  = if status =? 401 then "Invalid username or password."
    else if status =? 503
    then "The service is currently unavailable. Please try again later."
    else if (status =? 403) || (status =? 404) || (status =? 429)
    then "unknown_error"
    else "An unknown error occurred. Please try again.".
Proof.
  unfold status_message, _map_http_error, map_error_to_message.
  cbn [exc_cls].
  destruct (Z.eqb_spec status 401); [ reflexivity | ].
  destruct (Z.eqb_spec status 403);
    [ destruct (Z.eqb_spec status 503); [ lia | reflexivity ] | ].
  destruct (Z.eqb_spec status 404);
    [ destruct (Z.eqb_spec status 503); [ lia | reflexivity ] | ].
  destruct (Z.eqb_spec status 429);
    [ destruct (Z.eqb_spec status 503); [ lia | reflexivity ] | ].
  destruct (Z.eqb_spec status 503); reflexivity.
Qed.

Lemma dict_set_same (k : string) (v : pyobj) (entries : list (string * pyobj)) :
  assoc k (dict_set k v entries) = Some v.
Proof.
  induction entries as [|[k0 v0] rest IH]; cbn [dict_set assoc].
  - rewrite String.eqb_refl. reflexivity.
  - destruct (String.eqb k k0) eqn:E; cbn [assoc]; rewrite E;
      [ reflexivity | exact IH ].
Qed.

Lemma dict_set_other (k k' : string) (v : pyobj)
  (entries : list (string * pyobj)) :
  k' <> k -> assoc k' (dict_set k v entries) = assoc k' entries.
Proof.
  intros Hne. induction entries as [|[k0 v0] rest IH]; cbn [dict_set assoc].
  - destruct (String.eqb_spec k' k); [ contradiction | reflexivity ].
  - destruct (String.eqb_spec k k0) as [->|]; cbn [assoc].
    + destruct (String.eqb_spec k' k0); [ contradiction | reflexivity ].
    + destruct (String.eqb k' k0); [ reflexivity | exact IH ].
Qed.

Section Flow.

Variable env : FlowEnv.

(** What accepted data holds: the three keys, the timeout an integer. *)
Lemma schema_ok_fields (data out : pyobj) :
  STEP_USER_DATA_SCHEMA env data = Ok out ->
  exists entries u p t,
    data = VDict entries
    /\ py_getitem out CONF_USERNAME = Ok u
    /\ py_getitem out CONF_PASSWORD = Ok p
    /\ py_getitem out "timeout" = Ok (VInt t).
Proof.
  destruct data as [ | | | | | | entries]; try (cbn; discriminate).
  intros S. destruct (schema_accepts env _ _ S) as (items & V & -> & Hu & Hp).
  unfold has_key in Hu, Hp, V.
  destruct (assoc CONF_USERNAME entries) as [u0|] eqn:Au; [ | discriminate ].
  destruct (assoc CONF_PASSWORD entries) as [p0|] eqn:Ap; [ | discriminate ].
  set (given := if match assoc "timeout" entries with
                   | Some _ => true | None => false end
                then entries else (entries ++ [("timeout", VInt 5)])%list) in V.
  assert (Hg : exists v, assoc "timeout" given = Some v
                         /\ assoc CONF_USERNAME given = Some u0
                         /\ assoc CONF_PASSWORD given = Some p0).
  { subst given. destruct (assoc "timeout" entries) as [v|] eqn:A.
    - exists v. repeat split; assumption.
    - exists (VInt 5). split; [ apply assoc_app_default; exact A | ].
      split; apply assoc_app_some; assumption. }
  destruct Hg as (v & Gt & Gu & Gp).
  destruct (validate_items_assoc env _ _ _ _ V Gt) as (v' & Hitem & Hout).
  destruct (timeout_item env _ _ Hitem) as (t & -> & _).
  destruct (validate_items_assoc env _ _ _ _ V Gu) as (u & _ & Hou).
  destruct (validate_items_assoc env _ _ _ _ V Gp) as (p & _ & Hop).
  exists entries, u, p, t. cbn [py_getitem]. rewrite Hou, Hop, Hout.
  repeat split.
Qed.

(** X16.  On input the schema accepts, [async_step_user] shows the form
    again with the base error: the message of the status when the login
    answers with a status of 400 or above; the credentials message when
    the answer has no usable [jwt]; the network message on an aiohttp
    [ClientError]; and [unknown_error: ] followed by the exception's text
    on any other exception. *)
Theorem failed_login_is_reported (input out u p : pyobj) (t : Z) :
  STEP_USER_DATA_SCHEMA env input = Ok out ->
  py_getitem out CONF_USERNAME = Ok u ->
  py_getitem out CONF_PASSWORD = Ok p ->
  py_getitem out "timeout" = Ok (VInt t) ->
  let reply :=
    post env LOGIN_URL (VDict [("username", u); ("password", p)]) t in
  let shown message :=
    async_step_user env (Some input)
    = async_show_form "user" [("base", message)] in
  (forall r, reply = Ok r -> 400 <= status r ->
     shown (status_message (status r)))
  /\ (forall r body jwt,
        reply = Ok r -> status r < 400 -> json r = Ok body ->
        py_get body "jwt" VNone = Ok jwt -> truthy jwt = false ->
        shown "Invalid username or password.")
  /\ (forall text,
        reply = Raise (Exn ClientError text) ->
        shown "Network error. Check your internet connection.")
  /\ (forall e,
        reply = Raise e -> is_ClientError (exc_cls e) = false ->
        is_Invalid (exc_cls e) = false ->
        shown ("unknown_error: " ++ exc_str e)).
Proof.
  intros Hs Hu Hp Ht. cbv zeta.
  unfold async_step_user, step_user_body, _validate_input.
  rewrite Hs. cbn [obind]. rewrite Hu, Hp, Ht. cbn [obind as_int].
  repeat split.
  - intros r Hr Hst. rewrite Hr. cbn [obind]. unfold raise_for_status.
    apply Z.leb_le in Hst. rewrite Hst. cbn. reflexivity.
  - intros r body jwt Hr Hst Hj Hjwt Hf. rewrite Hr. cbn [obind].
    unfold Coordinator.raise_for_status.
    apply Z.leb_gt in Hst. rewrite Hst. cbn [obind]. rewrite Hj. cbn [obind].
    rewrite Hjwt. cbn [obind]. rewrite Hf. reflexivity.
  - intros text Hr. rewrite Hr. reflexivity.
  - intros e Hr Hc Hi. rewrite Hr. cbn [obind].
    assert (Hcr : is_ClientResponseError (exc_cls e) = false)
      by (destruct (exc_cls e); try reflexivity; discriminate Hc).
    rewrite Hcr, Hc. cbn [obind]. rewrite Hi. reflexivity.
Qed.

(** X17.  [async_step_user] creates an entry only when no entry exists
    yet, the schema accepted the input, and the login answered with a
    usable [jwt].  The entry's title is the validated username; its data
    is the input as given with [jwt_token] set to that [jwt], every other
    key as in the input. *)
Theorem entry_created_only_after_login (input title data : pyobj) :
  async_step_user env (Some input) = async_create_entry title data ->
  has_current_entries env = false
  /\ exists entries out password t r body jwt,
       input = VDict entries
       /\ STEP_USER_DATA_SCHEMA env input = Ok out
       /\ py_getitem out CONF_USERNAME = Ok title
       /\ py_getitem out CONF_PASSWORD = Ok password
       /\ py_getitem out "timeout" = Ok (VInt t)
       /\ post env LOGIN_URL
            (VDict [("username", title); ("password", password)]) t = Ok r
       /\ status r < 400
       /\ json r = Ok body
       /\ py_get body "jwt" VNone = Ok jwt
       /\ truthy jwt = true
       /\ data = VDict (dict_set "jwt_token" jwt entries)
       /\ assoc "jwt_token" (dict_set "jwt_token" jwt entries) = Some jwt
       /\ forall k, k <> "jwt_token" ->
            assoc k (dict_set "jwt_token" jwt entries) = assoc k entries.
Proof.
  unfold async_step_user, step_user_body.
  destruct (STEP_USER_DATA_SCHEMA env input) as [out|e] eqn:Hs; cbn [obind];
    [ | destruct (is_Invalid (exc_cls e)); discriminate ].
  destruct (schema_ok_fields _ _ Hs) as (entries & u & p & t & -> & Hu & Hp & Ht).
  rewrite Hu, Hp, Ht. cbn [obind as_int].
  unfold _validate_input.
  destruct (post env LOGIN_URL _ t) as [r|e] eqn:Hr; cbn [obind].
  2:{ destruct (is_ClientResponseError (exc_cls e)); [ cbn; discriminate | ].
      destruct (is_ClientError (exc_cls e)); [ cbn; discriminate | ].
      cbn [obind]. destruct (is_Invalid (exc_cls e)); discriminate. }
  unfold Coordinator.raise_for_status.
  destruct (Z.leb_spec 400 (status r)) as [|Hst]; cbn [obind];
    [ cbn; discriminate | ].
  destruct (json r) as [body|e] eqn:Hj; cbn [obind].
  2:{ destruct (is_ClientResponseError (exc_cls e)); [ cbn; discriminate | ].
      destruct (is_ClientError (exc_cls e)); [ cbn; discriminate | ].
      cbn [obind]. destruct (is_Invalid (exc_cls e)); discriminate. }
  destruct (py_get body "jwt" VNone) as [jwt|e] eqn:Hjwt; cbn [obind].
  2:{ destruct (is_ClientResponseError (exc_cls e)); [ cbn; discriminate | ].
      destruct (is_ClientError (exc_cls e)); [ cbn; discriminate | ].
      cbn [obind]. destruct (is_Invalid (exc_cls e)); discriminate. }
  destruct (truthy jwt) eqn:Htr; [ | cbn; discriminate ].
  cbn [obind py_get assoc String.eqb Ascii.eqb Bool.eqb is_str].
  destruct (async_set_unique_id env (py_str u)) as [[]|e]; cbn [obind];
    [ | destruct (is_Invalid (exc_cls e)); discriminate ].
  destruct (has_current_entries env) eqn:Hcur; [ discriminate | ].
  intros H; inversion H; subst title data.
  split; [ reflexivity | ].
  exists entries, out, p, t, r, body, jwt.
  repeat split; try assumption; try reflexivity.
  - apply dict_set_same.
  - intros k Hk. apply dict_set_other. exact Hk.
Qed.

End Flow.

End ConfigFlowMore.

(* ------------------------------------------------------------------ *)
(** * Properties of setup and unload *)

Module IntegrationFacts.

Import Coordinator Integration Notions.

Section Dict.

Context {V : Type}.

Lemma lookup_store_same (k : string) (v : V) (d : list (string * V)) :
  lookup k (store k v d) = Some v.
Proof.
  induction d as [|[k0 v0] rest IH]; cbn [store lookup].
  - rewrite String.eqb_refl. reflexivity.
  - destruct (String.eqb k k0) eqn:E; cbn [lookup]; rewrite E;
      [ reflexivity | exact IH ].
Qed.

Lemma lookup_store_other (k k' : string) (v : V) (d : list (string * V)) :
  k' <> k -> lookup k' (store k v d) = lookup k' d.
Proof.
  intros Hne. induction d as [|[k0 v0] rest IH]; cbn [store lookup].
  - destruct (String.eqb_spec k' k); [ contradiction | reflexivity ].
  - destruct (String.eqb_spec k k0) as [->|]; cbn [lookup].
    + destruct (String.eqb_spec k' k0); [ contradiction | reflexivity ].
    + destruct (String.eqb k' k0); [ reflexivity | exact IH ].
Qed.

Lemma lookup_remove_same (k : string) (d : list (string * V)) :
  lookup k (remove k d) = None.
Proof.
  induction d as [|[k0 v0] rest IH]; cbn [remove lookup]; [ reflexivity | ].
  destruct (String.eqb k k0) eqn:E; [ exact IH | ].
  cbn [lookup]. rewrite E. exact IH.
Qed.

Lemma lookup_remove_other (k k' : string) (d : list (string * V)) :
  k' <> k -> lookup k' (remove k d) = lookup k' d.
Proof.
  intros Hne. induction d as [|[k0 v0] rest IH]; cbn [remove lookup];
    [ reflexivity | ].
  destruct (String.eqb_spec k k0) as [->|]; cbn [lookup].
  - destruct (String.eqb_spec k' k0); [ contradiction | exact IH ].
  - destruct (String.eqb k' k0); [ reflexivity | exact IH ].
Qed.

End Dict.

(** X18.  [async_setup_entry]: when the coordinator cannot be built or
    its first refresh raises, it returns [False] and leaves
    [hass.data[DOMAIN]] and the forwarded entries as they were; otherwise
    the refreshed coordinator is stored under the entry's id, the other
    entries are kept, and the result is [True] once the platforms are
    forwarded (an exception of the forwarding propagates, with the
    coordinator already stored). *)
Theorem setup_stores_coordinator_or_returns_false
  (env : SetupEnv) (entry : ConfigEntry) (h : hass) :
  let result := fst (async_setup_entry env entry h) in
  let h' := snd (async_setup_entry env entry h) in
  let untouched :=
    result = Ok false /\ domain_data h' = domain_data h
    /\ forwarded h' = forwarded h in
  match new_coordinator entry with
  | Raise _ => untouched
  | Ok coordinator =>
      match first_refresh env coordinator with
      | Raise _ => untouched
      | Ok refreshed =>
          exists after,
            domain_data h' = Some after
            /\ lookup (entry_id entry) after = Some refreshed
            /\ (forall k, k <> entry_id entry ->
                  lookup k after = lookup k (entries_of h))
            /\ match forward_entry_setups env (entry_id entry) with
               | Ok _ =>
                   result = Ok true
                   /\ forwarded h' = (forwarded h ++ [entry_id entry])%list
               | Raise e => result = Raise e /\ forwarded h' = forwarded h
               end
      end
  end.
Proof.
  cbv zeta. unfold async_setup_entry, async_setup_coordinator, entries_of.
  destruct (new_coordinator entry) as [coordinator|e]; cbn;
    [ | repeat split ].
  destruct (first_refresh env coordinator) as [refreshed|e]; cbn;
    [ | repeat split ].
  eexists.
  destruct (forward_entry_setups env (entry_id entry)) as [[]|e]; cbn;
    (split; [ reflexivity | ]);
    (split; [ apply lookup_store_same | ]);
    (split; [ intros k Hk; apply lookup_store_other; exact Hk | ]);
    split; reflexivity.
Qed.

(** X19.  [async_unload_entry]: without [hass.data[DOMAIN]] it raises
    [KeyError]; otherwise it removes the entry's coordinator and keeps
    the others, whatever the unloading of the platforms then answers, and
    its outcome is that answer. *)
Theorem unload_removes_coordinator
  (env : SetupEnv) (entry : ConfigEntry) (h : hass) :
  let result := fst (async_unload_entry env entry h) in
  let h' := snd (async_unload_entry env entry h) in
  match domain_data h with
  | None =>
      result = Raise (Exn KeyError "'mijn_liander'")
      /\ domain_data h' = None
  | Some entries =>
      result = unload_platforms env (entry_id entry)
      /\ exists after,
           domain_data h' = Some after
           /\ lookup (entry_id entry) after = None
           /\ (forall k, k <> entry_id entry ->
                 lookup k after = lookup k entries)
  end.
Proof.
  cbv zeta. unfold async_unload_entry. cbn [note domain_data].
  destruct (domain_data h) as [entries|] eqn:D;
    [ | split; [ reflexivity | exact D ] ].
  destruct (lookup (entry_id entry) entries) eqn:L;
    destruct (unload_platforms env (entry_id entry)); cbn [fst snd domain_data];
    (split; [ reflexivity | ]); eexists; (split; [ reflexivity | ]);
    split;
    first [ apply lookup_remove_same | exact L
          | intros k Hk; apply lookup_remove_other; exact Hk
          | reflexivity ].
Qed.

(** X20.  After [async_setup_entry] has returned [True], the sensor
    platform's setup finds the coordinator and adds one sensor per
    description; after [async_unload_entry] it adds none; the coordinators
    of the other entries are the same before and after. *)
Theorem sensors_between_setup_and_unload
  (env : SetupEnv) (entry : ConfigEntry) (h h1 : hass) :
  async_setup_entry env entry h = (Ok true, h1) ->
  let h2 := snd (async_unload_entry env entry h1) in
  fst (sensor_async_setup_entry entry h1)
  = Ok (map (fun description =>
               SensorEntity.new_sensor description (unique_id entry))
          SensorEntity.SENSOR_DESCRIPTIONS)
  /\ fst (sensor_async_setup_entry entry h2) = Ok []
  /\ (forall k, k <> entry_id entry ->
        lookup k (entries_of h2) = lookup k (entries_of h)).
Proof.
  intros Hsetup. cbv zeta.
  unfold async_setup_entry, async_setup_coordinator in Hsetup.
  destruct (new_coordinator entry) as [coordinator|]; [ | discriminate ].
  destruct (first_refresh env coordinator) as [refreshed|]; [ | discriminate ].
  cbn [note domain_data forwarded hass_logged] in Hsetup.
  destruct (forward_entry_setups env (entry_id entry)) as [[]|];
    [ | discriminate ].
  inversion Hsetup; subst h1. clear Hsetup.
  unfold sensor_async_setup_entry, async_unload_entry, entries_of.
  cbn [note domain_data forwarded hass_logged].
  rewrite lookup_store_same.
  destruct (unload_platforms env (entry_id entry));
    cbn [fst snd note domain_data forwarded hass_logged];
    rewrite lookup_remove_same; (split; [ reflexivity | ]);
    (split; [ reflexivity | ]);
    intros k Hk; rewrite (lookup_remove_other _ _ _ Hk);
    apply lookup_store_other; exact Hk.
Qed.

End IntegrationFacts.

(* ------------------------------------------------------------------ *)
(** * The further properties at sample inputs *)

Module AtSamples.

Import Coordinator Samples MoreSamples Notions.

Lemma renewed_token_expiry_sample :
  _token (snd (_async_renew_token env_hour (init "user" "secret"))) = sample_jwt
  /\ fst (_async_renew_token env_hour (init "user" "secret")) = Ok tt
  /\ _token_expiry (snd (_async_renew_token env_hour (init "user" "secret")))
     = Some (exp_hour * 1000000)
  /\ (exists msg,
        fst (_async_renew_token env_millis (init "user" "secret"))
        = Raise (Exn UpdateFailed msg))
  /\ _token_expiry (snd (_async_renew_token env_millis (init "user" "secret")))
     = None.
Proof.
  split; [ | split; [ | split; [ | split ] ] ].
  - exact (proj1 (CoordinatorMore.renewed_token_expiry env_hour
                    (init "user" "secret") sample_jwt
                    [("exp", VInt exp_hour)] exp_hour
                    eq_refl eq_refl eq_refl eq_refl)).
  - refine (proj1 (proj1 (proj2 (CoordinatorMore.renewed_token_expiry env_hour
                                   (init "user" "secret") sample_jwt
                                   [("exp", VInt exp_hour)] exp_hour
                                   eq_refl eq_refl eq_refl eq_refl)) _)).
    unfold SECONDS_MIN, SECONDS_MAX, exp_hour. lia.
  - refine (proj1 (proj2 (proj1 (proj2 (CoordinatorMore.renewed_token_expiry
                                          env_hour (init "user" "secret")
                                          sample_jwt [("exp", VInt exp_hour)]
                                          exp_hour
                                          eq_refl eq_refl eq_refl eq_refl))
                            _))).
    unfold SECONDS_MIN, SECONDS_MAX, exp_hour. lia.
  - refine (proj1 (proj2 (proj2 (CoordinatorMore.renewed_token_expiry
                                   env_millis (init "user" "secret") sample_jwt
                                   [("exp", VInt 1700003600000)] 1700003600000
                                   eq_refl eq_refl eq_refl eq_refl)) _)).
    unfold SECONDS_MIN, SECONDS_MAX, exp_hour. lia.
  - refine (proj2 (proj2 (proj2 (CoordinatorMore.renewed_token_expiry
                                   env_millis (init "user" "secret") sample_jwt
                                   [("exp", VInt 1700003600000)] 1700003600000
                                   eq_refl eq_refl eq_refl eq_refl)) _)).
    unfold SECONDS_MIN, SECONDS_MAX, exp_hour. lia.
Defined.

Lemma valid_token_is_reused_sample :
  exists c2,
    get_valid_token env_hour after_login = (Ok sample_jwt, c2)
    /\ sent c2 = sent after_login /\ _token c2 = sample_jwt
    /\ _token_expiry c2 = Some (exp_hour * 1000000).
Proof.
  refine (CoordinatorMore.valid_token_is_reused env_hour
            (init "user" "secret") after_login sample_jwt
            (exp_hour * 1000000) eq_refl eq_refl _).
  cbn. lia.
Defined.

Lemma warning_exactly_within_30_minutes_sample :
  logged (snd (is_token_expired env_hour (holding (t0 + timedelta_minutes 10))))
  = [(WARNING, "Token is about to expire in less than 30 minutes.")]
  /\ logged (snd (is_token_expired env_hour (holding DATETIME_MIN))) = [].
Proof.
  split.
  - refine (proj1 (proj1 (CoordinatorMore.warning_exactly_within_30_minutes
                            env_hour (holding (t0 + timedelta_minutes 10))
                            _ eq_refl _) _) _);
      cbn; lia.
  - refine (proj2 (proj2 (CoordinatorMore.warning_exactly_within_30_minutes
                            env_hour (holding DATETIME_MIN) _ eq_refl _) _));
      cbn; lia.
Defined.

Lemma first_poll_logs_in_then_fetches_sample :
  fst (_async_update_data env_hour (init "user" "secret")) = Ok example_data
  /\ sent (snd (_async_update_data env_hour (init "user" "secret")))
     = [login_request (init "user" "secret"); data_request sample_jwt]
  /\ _token (snd (_async_update_data env_hour (init "user" "secret")))
     = sample_jwt
  /\ _token_expiry (snd (_async_update_data env_hour (init "user" "secret")))
     = Some (exp_hour * 1000000).
Proof.
  refine (CoordinatorMore.first_poll_logs_in_then_fetches env_hour
            (init "user" "secret") sample_jwt [("exp", VInt exp_hour)]
            exp_hour connections_ok example_data
            eq_refl eq_refl eq_refl eq_refl eq_refl _ _ _ eq_refl _ eq_refl).
  - cbn. lia.
  - discriminate.
  - unfold exp_hour, SECONDS_MAX. lia.
  - cbn. lia.
Defined.

Lemma address_is_stripped_text_or_none_sample :
  VStr "Mijnstraat 1 1000 AAB AMSTERDAM" = VNone
  \/ exists s, VStr "Mijnstraat 1 1000 AAB AMSTERDAM" = VStr s /\ strip s = s.
Proof.
  exact (SensorMore.address_is_stripped_text_or_none example_data _ eq_refl).
Defined.

Lemma unknown_key_reads_as_absent_sample :
  (forall v, Sensor.native_value "voltage" example_data = Ok v -> v = VNone)
  /\ (forall v, BinarySensor.is_on "voltage" example_data = Ok v ->
        v = VBool false).
Proof.
  split.
  - exact (proj1 (SensorMore.unknown_key_reads_as_absent "voltage" example_data)
             eq_refl).
  - exact (proj2 (SensorMore.unknown_key_reads_as_absent "voltage" example_data)
             eq_refl).
Defined.

Lemma first_connection_decides_sample :
  BinarySensor.is_on "contract"
    (VList ([VDict []] ++ VDict connected_entries :: [VNone]))
  = Ok (VBool true).
Proof.
  exact (SensorMore.first_connection_decides "contract" [VDict []] [VNone]
           [VNone] connected_entries _ contract_fields
           (or_introl eq_refl) eq_refl eq_refl eq_refl).
Defined.

Lemma every_connection_is_listed_sample :
  exists listed,
    VDict [("attribution", VStr BinaryEntity.ATTRIBUTION);
           ("Elektra", VList [VDict contract_fields; VNone])]
    = VDict [("attribution", VStr BinaryEntity.ATTRIBUTION);
             ("Elektra", VList listed)]
    /\ incl [VDict contract_fields; VNone] listed.
Proof.
  exact (SensorMore.every_connection_is_listed
           [VDict []; VDict connected_entries] _ (VDict connected_entries) _ _
           eq_refl (or_intror (or_introl eq_refl)) eq_refl eq_refl).
Defined.

Lemma null_connection_list_breaks_attributes_only_sample :
  BinarySensor.is_on "contract" (VList [VDict null_elektra_entries])
  = Ok (VBool false)
  /\ BinaryEntity.extra_state_attributes (VList [VDict null_elektra_entries])
     = Raise (Exn TypeError "'NoneType' object is not iterable").
Proof.
  pose proof (SensorMore.null_connection_list_breaks_attributes_only
                "contract" [] null_elektra_entries _ eq_refl eq_refl)
    as (_ & H1 & H2).
  split; assumption.
Defined.

Lemma icon_follows_status_only_sample :
  SensorEntity.sensor_icon
    (SensorEntity.new_sensor
       (SensorEntity.Description "status" (Some "Status") (Some "status")
          (Some "mdi:check-circle") (Some "mdi:cancel")
          (Some SensorEntity.SERVICE_NAME_ELEKTRA))
       (VStr "user"))
    example_data
  = Ok (Some "mdi:check-circle")
  /\ SensorEntity.sensor_icon
       (SensorEntity.new_sensor
          (SensorEntity.Description "status" (Some "Status") (Some "status")
             (Some "mdi:check-circle") (Some "mdi:cancel")
             (Some SensorEntity.SERVICE_NAME_ELEKTRA))
          (VStr "user"))
       VNone
     = Ok (Some "mdi:cancel").
Proof.
  split.
  - exact (proj2 (EntityFacts.icon_follows_status_only _ (VStr "user")
                    example_data
                    (or_intror (or_intror (or_intror (or_introl eq_refl)))))
             eq_refl).
  - exact (proj2 (EntityFacts.icon_follows_status_only _ (VStr "user") VNone
                    (or_intror (or_intror (or_intror (or_introl eq_refl)))))
             eq_refl).
Defined.

Lemma failed_login_is_reported_sample :
  ConfigFlow.async_step_user flow_env_401 (Some (VDict (form_input 10)))
  = ConfigFlow.async_show_form "user"
      [("base", "Invalid username or password.")].
Proof.
  refine (proj1 (ConfigFlowMore.failed_login_is_reported flow_env_401
                   (VDict (form_input 10)) (VDict (form_input 10))
                   (VStr "user") (VStr "secret") 10
                   eq_refl eq_refl eq_refl eq_refl) _ eq_refl _).
  cbn. lia.
Defined.

Lemma entry_created_only_after_login_sample :
  ConfigFlow.has_current_entries flow_env = false.
Proof.
  exact (proj1 (ConfigFlowMore.entry_created_only_after_login flow_env
                  (VDict (form_input 10)) (VStr "user")
                  (VDict (form_input 10 ++ [("jwt_token", sample_jwt)]))
                  eq_refl)).
Defined.

Lemma sensors_between_setup_and_unload_sample :
  fst (Integration.sensor_async_setup_entry sample_entry after_setup)
  = Ok (map (fun description =>
               SensorEntity.new_sensor description (VStr "user"))
          SensorEntity.SENSOR_DESCRIPTIONS)
  /\ fst (Integration.sensor_async_setup_entry sample_entry
            (snd (Integration.async_unload_entry setup_env sample_entry
                    after_setup)))
     = Ok []
  /\ (forall k, k <> "entry-1" ->
        Integration.lookup k
          (entries_of (snd (Integration.async_unload_entry setup_env
                              sample_entry after_setup)))
        = Integration.lookup k (entries_of empty_hass)).
Proof.
  exact (IntegrationFacts.sensors_between_setup_and_unload setup_env
           sample_entry empty_hass after_setup eq_refl).
Defined.

End AtSamples.
